(** * turf-nearest-neighbor: the Clark-Evans nearest-neighbour analysis

    A shallow embedding of [packages/turf-nearest-neighbor/index.js].

    - JavaScript numbers are IEEE 754 binary64 values: the kernel's
      primitive [float], so that [0 / 0] is [nan] and [2 / 0] is
      [infinity], as in the program.
    - GeoJSON features are objects on a store ([heap]); a variable holds a
      reference ([loc]).  The function compares centroids with [!==]
      (object identity) and writes into the study area it was given, so
      both the identity and the aliasing are part of the model.
    - The geometry packages the file imports ([@turf/bbox],
      [@turf/bbox-polygon], [@turf/centroid], [@turf/area],
      [@turf/nearestPoint], [@turf/distance]) are an interface
      ([GeometryLib]); the function is modelled over any implementation. *)

From Stdlib Require Import Floats ZArith.
From stdpp Require Import gmap strings list fin_maps.

Set Default Proof Using "Type".

(** ** JavaScript numbers *)

Module Num.

Abbreviation number := float.

(** [features.length]: a non-negative integer below [2^32], which
    binary64 holds exactly. *)
Definition of_nat (n : nat) : number :=
  PrimFloat.of_uint63 (Uint63.of_Z (Z.of_nat n)).

(** The literal [0.000001], i.e. the binary64 value nearest to it. *)
Definition micro : number := 0x1.0c6f7a0b5ed8dp-20%float.

(** The literal [0.26136]. *)
Definition c26136 : number := 0x1.0ba1f4b1ee243p-2%float.

(** [x === 0] on numbers: true of [+0] and [-0]. *)
Definition is_zero (x : number) : bool := PrimFloat.eqb x 0%float.

(** [values.reduce(function (sum, value) { return sum + value; }, 0)] *)
Definition sum (values : list number) : number :=
  fold_left (λ sum value, PrimFloat.add sum value) values 0%float.

End Num.

Import Num.

(** ** Exceptions and the outcome of a call *)

Inductive error : Type :=
  | TypeError (msg : string)
  | ReferenceError (msg : string)
  | Error (msg : string).

Inductive result (A : Type) : Type :=
  | Ok (a : A)
  | Throw (e : error).

Arguments Ok {A} a.
Arguments Throw {A} e.

(** ** GeoJSON data *)

Definition Position : Type := number * number.

Inductive Geometry : Type :=
  | Point (coordinates : Position)
  | LineString (coordinates : list Position)
  | Polygon (rings : list (list Position))
  | MultiPolygon (polygons : list (list (list Position))).

Definition isPolygon (g : Geometry) : bool :=
  match g with Polygon _ => true | _ => false end.

(** The object [calculateNearestNeighborStatistics] returns. *)
Record Analysis : Type := mkAnalysis {
  observedMeanDistance : number;
  expectedMeanDistance : number;
  nearestNeighborIndex : number;
  numberOfPoints : nat;
  zScore : number
}.

(** Values a feature's property map may hold. *)
Inductive value : Type :=
  | VNumber (x : number)
  | VString (s : string)
  | VBool (b : bool)
  | VNull
  | VAnalysis (a : Analysis).

(** A GeoJSON feature; [properties] is [None] when the member is [null]
    or missing.  The property map is held by value, one per feature: a
    property object that two features share is not represented, and what
    a write through one feature does to another that shares its property
    object is outside the model. *)
Record Feature : Type := mkFeature {
  geometry : Geometry;
  properties : option (gmap string value)
}.

(** Modelled from the spec: the features the collaborators build
    ([polygonFromBBox(bbox) -> PolygonFeature], [centroid(feature) ->
    PointFeature], section 6; the helpers package is not part of
    [index.js]) are new features with a property map, empty at first, which
    the result then extends. *)
Definition feature (g : Geometry) : Feature :=
  {| geometry := g; properties := Some ∅ |}.

(** ** The object store *)

Abbreviation loc := positive.
Abbreviation heap := (gmap loc Feature).

(** A computation that reads and writes the store and may throw. *)
Definition M (A : Type) : Type := heap → result (A * heap).

Global Instance M_ret : MRet M := λ A a h, Ok (a, h).

Global Instance M_bind : MBind M := λ A B k m h,
  match m h with
  | Ok (a, h') => k a h'
  | Throw e => Throw e
  end.

Definition throw {A} (e : error) : M A := λ _, Throw e.

(** A collaborator's outcome, inside a computation. *)
Definition lift {A} (r : result A) : M A := λ h,
  match r with
  | Ok a => Ok (a, h)
  | Throw e => Throw e
  end.

(** A new object: a reference no live object has. *)
Definition alloc (f : Feature) : M loc := λ h,
  let l := fresh (dom h) in Ok (l, <[l := f]> h).

(** Following a reference.  A JavaScript variable never holds a reference
    to nothing; on a store that lacks the object the model throws. *)
Definition deref (l : loc) : M Feature := λ h,
  match h !! l with
  | Some f => Ok (f, h)
  | None => Throw (ReferenceError "no such object")
  end.

Definition store (l : loc) (f : Feature) : M unit := λ h,
  Ok (tt, <[l := f]> h).

(** [xs.map(f)] (and a [forEach] that collects) for an effectful [f]:
    left to right, stopping at the first exception. *)
Fixpoint mapM {A B} (f : A → M B) (xs : list A) : M (list B) :=
  match xs with
  | [] => mret []
  | x :: xs' => y ← f x; ys ← mapM f xs'; mret (y :: ys)
  end.

(** ** The geometry collaborators

    What [index.js] imports.  They read geometry only (never a feature's
    properties) and build new values; [distance] receives whatever
    [nearestPoint] returned, [undefined] ([None]) included, and may
    throw. *)
Class GeometryLib : Type := {
  (** [bbox(dataset)]: [[minX, minY, maxX, maxY]] *)
  bbox : list Geometry → list number;
  (** [bboxPolygon(bbox)]: the geometry of the polygon feature it builds *)
  bboxPolygon : list number → Geometry;
  bboxPolygon_polygon : ∀ b, isPolygon (bboxPolygon b) = true;
  (** [centroid(feature)]: the geometry of the point feature it builds *)
  centroid : Geometry → Geometry;
  (** [area(feature)], in square metres *)
  area : Geometry → number;
  (** [nearestPoint(target, featureCollection(points))] *)
  nearestPoint : Geometry → list Geometry → option Geometry;
  (** [distance(from, to)], in kilometres *)
  distance : Geometry → option Geometry → result number
}.

(** ** [index.js] *)

Module NearestNeighbor.
Section WithLib.
Context {L : GeometryLib}.

(** [options.studyArea], and the local variable [studyArea]: a reference
    to a feature, or an array of numbers. *)
Inductive StudyArea : Type :=
  | SAFeature (l : loc)
  | SAArray (b : list number).

(** [options]; [studyArea] is [None] when the key is missing. *)
Record Options : Type := mkOptions { studyArea : option StudyArea }.

Definition popDensity (n : nat) (theArea : number) : number :=
  (of_nat n / theArea)%float.

Definition expectedMeanDistanceOf (popDensity : number) : number :=
  (1 / (2 * PrimFloat.sqrt popDensity))%float.

Definition variance (n : nat) (popDensity : number) : number :=
  (c26136 / PrimFloat.sqrt (of_nat n * popDensity))%float.

(** Lines 61-72. *)
Definition calculateNearestNeighborStatistics
    (n : nat) (observedMeanDistance theArea : number) : Analysis :=
  let popDensity := popDensity n theArea in
  let expectedMeanDistance := expectedMeanDistanceOf popDensity in
  let variance := variance n popDensity in
  {| observedMeanDistance := observedMeanDistance;
     expectedMeanDistance := expectedMeanDistance;
     nearestNeighborIndex := (observedMeanDistance / expectedMeanDistance)%float;
     numberOfPoints := n;
     zScore := ((observedMeanDistance - expectedMeanDistance) / variance)%float |}.

(** The geometries of the dataset's features, in order (what [bbox] and
    [featureEach] read). *)
Definition featureGeometries (dataset : list loc) : M (list Geometry) :=
  mapM (λ l, f ← deref l; mret (geometry f)) dataset.

(** Lines 28-34: the study area.
<<
  options = options || {};
  var studyArea = options.studyArea || bboxPolygon(bbox(dataset));
  if (Array.isArray(studyArea) && studyArea.length === 4) {
      studyArea = bboxPolygon(studyArea);
  }
>>  *)
Definition resolveStudyArea (dataset : list loc) (options : option Options)
    : M StudyArea :=
  let options := default {| studyArea := None |} options in
  studyArea ← match studyArea options with
              | Some sa => mret sa
              | None =>
                  gs ← featureGeometries dataset;
                  l ← alloc (feature (bboxPolygon (bbox gs)));
                  mret (SAFeature l)
              end;
  match studyArea with
  | SAArray b =>
      if decide (length b = 4)
      then l ← alloc (feature (bboxPolygon b)); mret (SAFeature l)
      else mret studyArea
  | SAFeature _ => mret studyArea
  end.

(** Lines 35-38: one new centroid object per feature, in input order. *)
Definition collectCentroids (dataset : list loc) : M (list loc) :=
  mapM (λ l, f ← deref l; alloc (feature (centroid (geometry f)))) dataset.

(** Lines 41-43: [features.filter(function (f) { return f !== feature; })],
    a comparison of references. *)
Definition theOtherFeatures (features : list loc) (feature : loc) : list loc :=
  filter (λ f, f ≠ feature) features.

(** Lines 40-44, the callback of [features.map]. *)
Definition nearestDistance (features : list loc) (feature : loc) : M number :=
  others ← featureGeometries (theOtherFeatures features feature);
  p ← deref feature;
  lift (distance (geometry p) (nearestPoint (geometry p) others)).

Definition nearestDistances (features : list loc) : M (list number) :=
  mapM (nearestDistance features) features.

Definition analysisKey : string := "nearestNeighborAnalysis".

(** Line 49: [studyArea.properties.nearestNeighborAnalysis = ...].  On an
    array, or on a feature whose [properties] is [null], the target of
    the assignment is not an object and the statement throws; the program
    calls [area(studyArea)] before it does, so that an exception of that
    call would be the one thrown: no statement below is about which
    exception a call that does not return throws here. *)
Definition attachAnalysis (sa : StudyArea) (n : nat) (observedMeanDistance : number)
    : M loc :=
  match sa with
  | SAArray _ => throw (TypeError "Cannot set properties of undefined")
  | SAFeature l =>
      f ← deref l;
      match properties f with
      | None => throw (TypeError "Cannot set properties of null")
      | Some props =>
          let analysis :=
            calculateNearestNeighborStatistics n observedMeanDistance
              (area (geometry f) * micro)%float in
          _ ← store l {| geometry := geometry f;
                         properties := Some (<[analysisKey := VAnalysis analysis]> props) |};
          mret l
      end
  end.

(** Lines 26-51. *)
Definition nearestNeighbor (dataset : list loc) (options : option Options) : M loc :=
  studyArea ← resolveStudyArea dataset options;
  features ← collectCentroids dataset;
  let n := length features in
  values ← nearestDistances features;
  let observedMeanDistance := (Num.sum values / of_nat n)%float in
  attachAnalysis studyArea n observedMeanDistance.

(** The analysis a feature carries, if any. *)
Definition analysisOf (l : loc) (h : heap) : option Analysis :=
  f ← h !! l;
  props ← properties f;
  v ← props !! analysisKey;
  match v with VAnalysis a => Some a | _ => None end.

End WithLib.
End NearestNeighbor.

(** ** The module: its bindings and its default export *)

Module EsModule.

(** The top-level items of a module, as far as its export needs them. *)
Inductive item : Type :=
  | ImportNamed (name : string) (source : string)
  | ImportDefault (name : string) (source : string)
  | FunctionDeclaration (name : string) (inner : list string)
  | ExportDefaultIdentifier (name : string).

(** [index.js], lines 1-8, 26 (with the function nested at line 61) and 75. *)
Definition index_js : list item :=
  [ ImportNamed "featureEach" "@turf/meta";
    ImportNamed "featureCollection" "@turf/helpers";
    ImportDefault "bbox" "@turf/bbox";
    ImportDefault "bboxPolygon" "@turf/bbox-polygon";
    ImportDefault "centroid" "@turf/centroid";
    ImportDefault "area" "@turf/area";
    ImportDefault "nearestPoint" "@turf/nearestPoint";
    ImportDefault "distance" "@turf/distance";
    FunctionDeclaration "nearestNeighbor" ["calculateNearestNeighborStatistics"];
    ExportDefaultIdentifier "circle" ].

(** The module scope: imports and top-level function declarations are
    bound before any statement runs; a function's inner declarations are
    not in it. *)
Definition moduleScope (m : list item) : list string :=
  omap (λ i, match i with
             | ImportNamed x _ | ImportDefault x _ => Some x
             | FunctionDeclaration f _ => Some f
             | ExportDefaultIdentifier _ => None
             end) m.

(** Evaluating the module: [export default e] evaluates the expression
    [e]; an identifier with no binding is a [ReferenceError].  The result
    is the binding the default export holds. *)
Fixpoint evaluateItems (scope : list string) (m : list item) : result (option string) :=
  match m with
  | [] => Ok None
  | ExportDefaultIdentifier x :: _ =>
      if decide (x ∈ scope) then Ok (Some x)
      else Throw (ReferenceError (x +:+ " is not defined"))
  | _ :: m' => evaluateItems scope m'
  end.

Definition evaluate (m : list item) : result (option string) :=
  evaluateItems (moduleScope m) m.

End EsModule.

(** ** A planar geometry library

    One implementation of the collaborators, to run the function on
    concrete data.  Coordinates are kilometres on a plane; areas are
    reported in square metres, the convention [index.js] converts from. *)

Module Planar.

(** Modelled from the spec: the lesser and the greater of two numbers,
    for [bbox]. *)
Definition min (a b : number) : number := if PrimFloat.ltb a b then a else b.
Definition max (a b : number) : number := if PrimFloat.ltb b a then a else b.

(** Modelled from the spec: every position of a geometry, for [bbox]. *)
Definition coordAll (g : Geometry) : list Position :=
  match g with
  | Point c => [c]
  | LineString cs => cs
  | Polygon rings => concat rings
  | MultiPolygon polygons => concat (concat polygons)
  end.

(** Modelled from the spec: the vertices of a geometry, for [centroid]; a
    ring's closing position is left out. *)
Definition vertices (g : Geometry) : list Position :=
  match g with
  | Polygon rings => concat ((λ r, removelast r) <$> rings)
  | MultiPolygon polygons =>
      concat ((λ rings, concat ((λ r, removelast r) <$> rings)) <$> polygons)
  | _ => coordAll g
  end.

(** Modelled from the spec: [boundingBox(features) -> [minX,minY,maxX,maxY]]
    (section 6), the package [@turf/bbox]. *)
Definition bbox (gs : list Geometry) : list number :=
  let '(w, s, e, n) :=
    fold_left (λ '(w, s, e, n) '(x, y), (min w x, min s y, max e x, max n y))
              (concat (coordAll <$> gs))
              (infinity, infinity, neg_infinity, neg_infinity) in
  [w; s; e; n].

(** Modelled from the spec: [polygonFromBBox(bbox) -> PolygonFeature]
    (section 6), the package [@turf/bbox-polygon]: the rectangle of the
    box as one closed ring. *)
Definition bboxPolygon (b : list number) : Geometry :=
  let w := nth 0 b nan in let s := nth 1 b nan in
  let e := nth 2 b nan in let n := nth 3 b nan in
  Polygon [[(w, s); (e, s); (e, n); (w, n); (w, s)]].

(** Modelled from the spec: [centroid(feature) -> PointFeature] (section 6),
    the package [@turf/centroid]: the mean of the vertices. *)
Definition centroid (g : Geometry) : Geometry :=
  let vs := vertices g in
  let '(sx, sy) := fold_left (λ '(sx, sy) '(x, y), (sx + x, sy + y)%float)
                             vs (0, 0)%float in
  Point (sx / of_nat (length vs), sy / of_nat (length vs))%float.

(** Modelled from the spec: twice the signed area of a ring (the
    surveyor's formula), for [area]. *)
Fixpoint ringArea2 (r : list Position) : number :=
  match r with
  | (x1, y1) :: (((x2, y2) :: _) as r') => (x1 * y2 - x2 * y1 + ringArea2 r')%float
  | _ => 0%float
  end.

(** Modelled from the spec: [area(polygonFeature) -> float (square meters)]
    (section 6), the package [@turf/area], for planar kilometre
    coordinates; a geometry that is not a polygon has area 0. *)
Definition area (g : Geometry) : number :=
  match g with
  | Polygon (outer :: _) => (PrimFloat.abs (ringArea2 outer / 2) * 1000000)%float
  | _ => 0%float
  end.

(** Modelled from the spec: [planarOrGeodeticDistance(pointA, pointB) ->
    float (kilometers)] (section 6), the package [@turf/distance], as the
    planar distance; a missing or non-point argument throws. *)
Definition distance (from : Geometry) (to : option Geometry) : result number :=
  match from, to with
  | Point (x1, y1), Some (Point (x2, y2)) =>
      Ok (PrimFloat.sqrt ((x2 - x1) * (x2 - x1) + (y2 - y1) * (y2 - y1)))%float
  | _, _ => Throw (Error "coord is required")
  end.

(** Modelled from the spec: [nearestAmong(point, candidateSet) -> point]
    (section 6), the package [@turf/nearestPoint]: the first candidate at
    the least distance, [undefined] when there is none. *)
Definition nearestPoint (target : Geometry) (points : list Geometry)
    : option Geometry :=
  fst (fold_left
         (λ '(nearest, minDist) pt,
            match distance target (Some pt) with
            | Ok d => if PrimFloat.ltb d minDist then (Some pt, d) else (nearest, minDist)
            | Throw _ => (nearest, minDist)
            end)
         points (None, infinity)).

(** The planar collaborators as a [GeometryLib]: what [bboxPolygon]
    builds is a polygon by its definition. *)
Definition lib : GeometryLib :=
  Build_GeometryLib bbox bboxPolygon (λ _, eq_refl)
                    centroid area nearestPoint distance.

(** A store holding the given features at references 1, 2, ... *)
Definition heapOf (fs : list Feature) : heap :=
  list_to_map (zip (Pos.of_nat <$> seq 1 (length fs)) fs).

Definition refsOf (fs : list Feature) : list loc :=
  Pos.of_nat <$> seq 1 (length fs).

End Planar.

Import NearestNeighbor.

(** ** What the statements below speak of *)

(** The object at [l] has geometry [g]. *)
Definition hasGeometry (h : heap) (l : loc) (g : Geometry) : Prop :=
  geometry <$> h !! l = Some g.

(** The dataset's features are on the store, with geometries [gs]. *)
Definition datasetIn (h : heap) (dataset : list loc) (gs : list Geometry) : Prop :=
  Forall2 (hasGeometry h) dataset gs.

(** A study area the assignment of line 49 can write to: none given, an
    array of four numbers, or a feature on the store with a property map. *)
Definition studyAreaUsable (h : heap) (options : option Options) : Prop :=
  match studyArea (default {| studyArea := None |} options) with
  | None => True
  | Some (SAArray b) => length b = 4
  | Some (SAFeature l) => ∃ f props, h !! l = Some f ∧ properties f = Some props
  end.

(** The study areas section 4.1 lists: none, an array of four numbers, a
    polygon feature on the store. *)
Definition studyAreaSupported (h : heap) (options : option Options) : Prop :=
  match studyArea (default {| studyArea := None |} options) with
  | None => True
  | Some (SAArray b) => length b = 4
  | Some (SAFeature l) => ∃ f, h !! l = Some f ∧ isPolygon (geometry f) = true
  end.

(** The feature [f] after line 49 wrote the analysis [a] into its property
    map [props]. *)
Definition annotate (f : Feature) (props : gmap string value) (a : Analysis) : Feature :=
  {| geometry := geometry f;
     properties := Some (<[analysisKey := VAnalysis a]> props) |}.

Section Vocabulary.
Context {L : GeometryLib}.

(** The nearest-neighbour distances of the points [rest], each searched
    among all the other points ([pre], before it, and those after it). *)
Fixpoint distancesFrom (pre rest : list Geometry) : result (list number) :=
  match rest with
  | [] => Ok []
  | p :: post =>
      match distance p (nearestPoint p (pre ++ post)) with
      | Ok d =>
          match distancesFrom (pre ++ [p]) post with
          | Ok ds => Ok (d :: ds)
          | Throw e => Throw e
          end
      | Throw e => Throw e
      end
  end.

Definition distancesOf (points : list Geometry) : result (list number) :=
  distancesFrom [] points.

(** On the candidates [cands] of the point [p], the search returns a
    candidate, no candidate is nearer, and its distance is not negative. *)
Definition nearestSearchCorrect (p : Geometry) (cands : list Geometry) : Prop :=
  ∃ q dq, nearestPoint p cands = Some q ∧ distance p (Some q) = Ok dq ∧
          PrimFloat.ltb dq 0 = false ∧
          ∀ c, c ∈ cands → ∃ dc, distance p (Some c) = Ok dc ∧ PrimFloat.leb dq dc = true.

(** A point is at distance zero from its own coordinates. *)
Definition zeroDistance (p : Geometry) : Prop :=
  ∃ z, distance p (Some p) = Ok z ∧ is_zero z = true.

(** The statistics of a call on [n] features whose nearest-neighbour
    distances are [values], for a study area of geometry [g]. *)
Definition statisticsFor (n : nat) (values : list number) (g : Geometry) : Analysis :=
  calculateNearestNeighborStatistics n (Num.sum values / of_nat n)%float
                                     (area g * micro)%float.

(** Where the returned study area comes from. *)
Definition studyAreaOrigin (h : heap) (gs : list Geometry) (options : option Options)
    (r : loc) (f : Feature) : Prop :=
  match studyArea (default {| studyArea := None |} options) with
  | None => h !! r = None ∧ f = feature (bboxPolygon (bbox gs))
  | Some (SAArray b) => length b = 4 ∧ h !! r = None ∧ f = feature (bboxPolygon b)
  | Some (SAFeature l) => r = l ∧ (is_Some (h !! l) → h !! l = Some f)
  end.

End Vocabulary.

(** ** The formulas as the specification words them (section 4.4) *)

Module ClarkEvans.
#[local] Set Warnings "-inexact-float".

Definition sqMetersToSqKm (area : number) : number := (area * 1e-6)%float.

Definition popDensity (n : nat) (areaSqKm : number) : number :=
  (of_nat n / areaSqKm)%float.

Definition expectedMeanDistance (n : nat) (areaSqKm : number) : number :=
  (1 / (2 * PrimFloat.sqrt (popDensity n areaSqKm)))%float.

Definition variance (n : nat) (areaSqKm : number) : number :=
  (0.26136 / PrimFloat.sqrt (of_nat n * popDensity n areaSqKm))%float.

Definition nearestNeighborIndex (n : nat) (observed areaSqKm : number) : number :=
  (observed / expectedMeanDistance n areaSqKm)%float.

Definition zScore (n : nat) (observed areaSqKm : number) : number :=
  ((observed - expectedMeanDistance n areaSqKm) / variance n areaSqKm)%float.

End ClarkEvans.

(** ** Sample stores *)

Module Samples.

Definition unitSquare : Geometry :=
  Polygon [[(0, 0); (1, 0); (1, 1); (0, 1); (0, 0)]]%float.

(** The four corners of the unit square, as point features. *)
Definition p00 : Geometry := Point (0, 0)%float.
Definition p01 : Geometry := Point (0, 1)%float.
Definition p10 : Geometry := Point (1, 0)%float.
Definition p11 : Geometry := Point (1, 1)%float.
Definition corners : list Geometry := [p00; p01; p10; p11].

(** A point, a line and a polygon. *)
Definition mixed : list Geometry :=
  [Point (0, 0); LineString [(2, 0); (2, 2)]; unitSquare]%float.

(** Two features with the same centroid, and a third elsewhere. *)
Definition coincident : list Geometry :=
  [Point (0, 0); Point (0, 0); Point (3, 4)]%float.

(** Two points on a horizontal line: their bounding box has no height. *)
Definition collinear : list Geometry :=
  [Point (0, 0); Point (1, 0)]%float.

Definition heapOf (gs : list Geometry) : heap := Planar.heapOf (feature <$> gs).
Definition refsOf (gs : list Geometry) : list loc := Planar.refsOf (feature <$> gs).

(** A caller's polygon with a property of its own, at reference 1, and
    the dataset [gs] after it. *)
Definition ownArea : Feature :=
  {| geometry := unitSquare;
     properties := Some {[ "name" := VString "plot"; analysisKey := VNumber 7 ]} |}.

Definition heapWithArea (gs : list Geometry) : heap :=
  Planar.heapOf (ownArea :: (feature <$> gs)).
Definition refsAfterArea (gs : list Geometry) : list loc :=
  tail (Planar.refsOf (ownArea :: (feature <$> gs))).

Definition useArea : option Options := Some {| studyArea := Some (SAFeature 1) |}.

End Samples.

(** Goals about a sample store are settled by evaluation. *)
Ltac on_sample_store :=
  repeat match goal with
         | |- datasetIn _ _ _ => unfold datasetIn
         | |- Forall2 _ _ _ => constructor
         | |- hasGeometry _ _ _ => vm_compute; reflexivity
         end.

(** Membership in a short explicit list, case by case. *)
Ltac each_candidate H :=
  vm_compute in H;
  repeat (apply elem_of_cons in H as [->|H]);
  try (by apply elem_of_nil in H).

(** ** Positions and study areas, for statements about the whole call *)

Section Positions.
Context {L : GeometryLib}.

(** What the callback of [features.map] computes for the point at position
    [i] of [points]: its distance to the nearest of the points at the
    other positions; [None] past the end. *)
Definition distanceAt (points : list Geometry) (i : nat) : option (result number) :=
  p ← points !! i; Some (distance p (nearestPoint p (delete i points))).

(** The geometry the study area of a call has, when the options say it:
    the rectangle of the dataset, the rectangle of the given box, or the
    geometry of the given feature. *)
Definition studyAreaGeometry (h : heap) (gs : list Geometry) (options : option Options)
    : option Geometry :=
  match studyArea (default {| studyArea := None |} options) with
  | None => Some (bboxPolygon (bbox gs))
  | Some (SAArray b) => if decide (length b = 4) then Some (bboxPolygon b) else None
  | Some (SAFeature l) => geometry <$> h !! l
  end.

End Positions.

(** [options.studyArea] is not a feature: the key is missing, or holds an
    array. *)
Definition noFeatureGiven (options : option Options) : Prop :=
  match studyArea (default {| studyArea := None |} options) with
  | Some (SAFeature _) => False
  | _ => True
  end.

(** A feature given as [options.studyArea] is on the store. *)
Definition studyAreaOnStore (h : heap) (options : option Options) : Prop :=
  match studyArea (default {| studyArea := None |} options) with
  | Some (SAFeature l) => is_Some (h !! l)
  | _ => True
  end.

(** More sample stores. *)
Module MoreSamples.

(** One point feature, and a dataset that lists it twice. *)
Definition single : list Geometry := [Point (2, 3)%float].
Definition twice : list loc := [1%positive; 1%positive].

(** Two points and a third infinitely far off: nothing is at a finite
    distance from the third. *)
Definition farOff : list Geometry :=
  [Point (0, 0); Point (1, 0); Point (infinity, 0)]%float.

(** A study area whose [properties] member is [null], at reference 1, and
    the dataset after it. *)
Definition bareArea : Feature :=
  {| geometry := Samples.unitSquare; properties := None |}.
Definition heapWithBareArea (gs : list Geometry) : heap :=
  Planar.heapOf (bareArea :: (feature <$> gs)).

(** A box of six numbers, as a three-dimensional bounding box has. *)
Definition box6 : option Options :=
  Some {| studyArea := Some (SAArray [0; 0; 0; 1; 1; 1]%float) |}.

(** The unit square as a box of four numbers. *)
Definition box4 : option Options :=
  Some {| studyArea := Some (SAArray [0; 0; 1; 1]%float) |}.

End MoreSamples.

(** ** Numbers *)

Section NumberFacts.

Lemma nan_div (x : number) : (nan / x)%float = nan.
Proof.
  apply Prim2SF_inj. rewrite FloatAxioms.div_spec. reflexivity.
Qed.

Lemma nan_sub (x : number) : (nan - x)%float = nan.
Proof.
  apply Prim2SF_inj. rewrite FloatAxioms.sub_spec. reflexivity.
Qed.

(** [d <= z], [z == 0] and not [d < 0] leave [d == 0]. *)
Lemma le_zero_not_neg (d z : number) :
  PrimFloat.leb d z = true → is_zero z = true → PrimFloat.ltb d 0 = false →
  is_zero d = true.
Proof.
  unfold is_zero. rewrite FloatAxioms.leb_spec, !FloatAxioms.eqb_spec, FloatAxioms.ltb_spec.
  change (Prim2SF 0) with (S754_zero false).
  destruct (Prim2SF d) as [sd| sd | |sd md ed], (Prim2SF z) as [sz|sz| |sz mz ez];
    cbn; try destruct sd; try destruct sz; cbn; congruence.
Qed.

End NumberFacts.

(** ** The monad *)

Section MonadFacts.

Lemma bind_run {A B} (m : M A) (k : A → M B) (h : heap) :
  (m ≫= k) h = match m h with Ok (a, h') => k a h' | Throw e => Throw e end.
Proof. reflexivity. Qed.

Lemma ret_run {A} (a : A) (h : heap) : mret (M:=M) a h = Ok (a, h).
Proof. reflexivity. Qed.

Lemma deref_ok h l f : h !! l = Some f → deref l h = Ok (f, h).
Proof. intros E. unfold deref. rewrite E. reflexivity. Qed.

Lemma alloc_fresh (h : heap) : h !! fresh (dom h) = None.
Proof. apply not_elem_of_dom, is_fresh. Qed.

Lemma hasGeometry_lookup h l g :
  hasGeometry h l g ↔ ∃ f, h !! l = Some f ∧ geometry f = g.
Proof.
  unfold hasGeometry. destruct (h !! l) as [f|]; cbn; split.
  - intros [= <-]. eauto.
  - intros (f' & [= <-] & <-). reflexivity.
  - discriminate.
  - intros (f' & [=] & _).
Qed.

Lemma hasGeometry_mono h h' l g :
  h ⊆ h' → hasGeometry h l g → hasGeometry h' l g.
Proof.
  intros Hsub Hg. apply hasGeometry_lookup in Hg as (f & Hl & <-).
  apply hasGeometry_lookup. exists f. split; [|done].
  eapply lookup_weaken; eauto.
Qed.

Lemma datasetIn_mono h h' ds gs :
  h ⊆ h' → datasetIn h ds gs → datasetIn h' ds gs.
Proof.
  intros Hsub Hds. unfold datasetIn in *.
  eapply Forall2_impl; [exact Hds|].
  intros l g. by apply hasGeometry_mono.
Qed.

Lemma datasetIn_length h ds gs : datasetIn h ds gs → length gs = length ds.
Proof. intros H. symmetry. eapply Forall2_length, H. Qed.

End MonadFacts.

(** ** The steps of [nearestNeighbor] on a store *)

Section RunFacts.
Context {L : GeometryLib}.

Lemma featureGeometries_run h ds gs :
  datasetIn h ds gs → featureGeometries ds h = Ok (gs, h).
Proof.
  unfold featureGeometries. induction 1 as [|l g ds gs Hl _ IH]; [done|].
  apply hasGeometry_lookup in Hl as (f & Hl & <-).
  cbn [mapM]. rewrite !bind_run, (deref_ok _ _ _ Hl). cbn beta iota.
  rewrite ret_run. cbn beta iota. rewrite bind_run, IH. reflexivity.
Qed.

(** The study area of a call without [options.studyArea]. *)
Lemma resolveStudyArea_absent h ds gs options :
  datasetIn h ds gs →
  studyArea (default {| studyArea := None |} options) = None →
  resolveStudyArea ds options h =
    Ok (SAFeature (fresh (dom h)),
        <[fresh (dom h) := feature (bboxPolygon (bbox gs))]> h).
Proof.
  intros Hds Hopt. unfold resolveStudyArea. rewrite Hopt.
  rewrite !bind_run, (featureGeometries_run _ _ _ Hds). reflexivity.
Qed.

Lemma resolveStudyArea_array h ds options b :
  studyArea (default {| studyArea := None |} options) = Some (SAArray b) →
  resolveStudyArea ds options h =
    if decide (length b = 4)
    then Ok (SAFeature (fresh (dom h)), <[fresh (dom h) := feature (bboxPolygon b)]> h)
    else Ok (SAArray b, h).
Proof.
  intros Hopt. unfold resolveStudyArea. rewrite Hopt, bind_run, ret_run.
  destruct (decide (length b = 4)); reflexivity.
Qed.

Lemma resolveStudyArea_feature h ds options l :
  studyArea (default {| studyArea := None |} options) = Some (SAFeature l) →
  resolveStudyArea ds options h = Ok (SAFeature l, h).
Proof.
  intros Hopt. unfold resolveStudyArea. rewrite Hopt. reflexivity.
Qed.

(** Whatever the options, the store only grows, by at most one new
    object. *)
Lemma resolveStudyArea_run h ds gs options :
  datasetIn h ds gs →
  ∃ sa h0, resolveStudyArea ds options h = Ok (sa, h0) ∧ h ⊆ h0 ∧
           (∀ l, sa ≠ SAFeature l → h0 !! l = h !! l).
Proof.
  intros Hds.
  destruct (studyArea (default {| studyArea := None |} options)) as [[l|b]|] eqn:Hopt.
  - rewrite (resolveStudyArea_feature _ _ _ _ Hopt). eauto.
  - rewrite (resolveStudyArea_array _ _ _ _ Hopt).
    destruct (decide (length b = 4)).
    + eexists _, _. split; [done|]. split.
      * apply insert_subseteq, alloc_fresh.
      * intros l Hl. apply lookup_insert_ne. congruence.
    + eauto.
  - rewrite (resolveStudyArea_absent _ _ _ _ Hds Hopt).
    eexists _, _. split; [done|]. split.
    + apply insert_subseteq, alloc_fresh.
    + intros l Hl. apply lookup_insert_ne. congruence.
Qed.

(** One new point object per feature: the references are pairwise
    distinct and new, and nothing else on the store changes. *)
Lemma collectCentroids_run h ds gs :
  datasetIn h ds gs →
  ∃ features h1,
    collectCentroids ds h = Ok (features, h1) ∧
    Forall2 (λ l g, h1 !! l = Some (feature (centroid g))) features gs ∧
    NoDup features ∧
    Forall (λ l, h !! l = None) features ∧
    h ⊆ h1 ∧
    (∀ l, l ∉ features → h1 !! l = h !! l).
Proof.
  intros Hds. revert ds h Hds. induction gs as [|g gs IH]; intros ds h Hds.
  - apply Forall2_nil_inv_r in Hds as ->.
    exists [], h. repeat split; try done; constructor.
  - apply Forall2_cons_inv_r in Hds as (l & ds' & Hl & Hds & ->).
    apply hasGeometry_lookup in Hl as (f & Hl & <-).
    set (c := fresh (dom h)).
    set (h' := <[c := feature (centroid (geometry f))]> h).
    assert (Hc : h !! c = None) by apply alloc_fresh.
    assert (Hsub : h ⊆ h') by by apply insert_subseteq.
    destruct (IH ds' h' (datasetIn_mono _ _ _ _ Hsub Hds))
      as (features & h1 & Hrun & Hgeo & Hnd & Hnew & Hsub1 & Hframe).
    exists (c :: features), h1.
    assert (Hcf : c ∉ features).
    { intros Hin. rewrite Forall_forall in Hnew. specialize (Hnew _ Hin).
      unfold h' in Hnew. by rewrite lookup_insert_eq in Hnew. }
    split; [|repeat split].
    + unfold collectCentroids in *. cbn [mapM].
      rewrite !bind_run, (deref_ok _ _ _ Hl). cbn beta iota.
      unfold alloc at 1. cbn beta iota zeta. fold c h'.
      rewrite bind_run, Hrun. reflexivity.
    + constructor; [|done].
      eapply lookup_weaken; [|exact Hsub1]. apply lookup_insert_eq.
    + by constructor.
    + constructor; [done|]. eapply Forall_impl; [exact Hnew|].
      intros x Hx. cbn in Hx. eapply lookup_weaken_None; eauto.
    + by etrans.
    + intros x Hx. apply not_elem_of_cons in Hx as [Hxc Hx].
      rewrite (Hframe _ Hx). by apply lookup_insert_ne.
Qed.

Lemma theOtherFeatures_absent (fs : list loc) (l : loc) :
  l ∉ fs → theOtherFeatures fs l = fs.
Proof.
  unfold theOtherFeatures. induction fs as [|x fs IH]; [done|].
  intros [Hx Hfs]%not_elem_of_cons.
  rewrite filter_cons_True by congruence. by rewrite IH.
Qed.

(** Filtering by reference removes the object itself and nothing else. *)
Lemma theOtherFeatures_split (pre post : list loc) (l : loc) :
  NoDup (pre ++ l :: post) →
  theOtherFeatures (pre ++ l :: post) l = pre ++ post.
Proof.
  intros Hnd.
  apply NoDup_app in Hnd as (_ & Hpre & Hpost).
  apply NoDup_cons in Hpost as [Hl _].
  unfold theOtherFeatures.
  rewrite filter_app, filter_cons_False by (intros ?; done).
  fold (theOtherFeatures pre l) (theOtherFeatures post l).
  rewrite !theOtherFeatures_absent; [done..|].
  intros Hin. apply (Hpre l Hin). by left.
Qed.

Lemma nearestDistance_run h pre post l ps qs p :
  NoDup (pre ++ l :: post) →
  datasetIn h pre ps → datasetIn h post qs → hasGeometry h l p →
  nearestDistance (pre ++ l :: post) l h =
    lift (distance p (nearestPoint p (ps ++ qs))) h.
Proof.
  intros Hnd Hpre Hpost Hl. unfold nearestDistance.
  rewrite (theOtherFeatures_split _ _ _ Hnd).
  apply hasGeometry_lookup in Hl as (f & Hl & <-).
  rewrite bind_run, (featureGeometries_run h (pre ++ post) (ps ++ qs))
    by by apply Forall2_app.
  cbn beta iota. rewrite bind_run, (deref_ok _ _ _ Hl). reflexivity.
Qed.

Lemma nearestDistances_from h pre rest ps qs :
  NoDup (pre ++ rest) →
  datasetIn h pre ps → datasetIn h rest qs →
  mapM (nearestDistance (pre ++ rest)) rest h = lift (distancesFrom ps qs) h.
Proof.
  intros Hnd Hpre Hrest. revert pre ps Hnd Hpre.
  induction Hrest as [|l p post qs Hl Hpost IH]; intros pre ps Hnd Hpre; [done|].
  cbn [mapM distancesFrom]. rewrite bind_run.
  rewrite (nearestDistance_run h pre post l ps qs p) by done.
  destruct (distance p (nearestPoint p (ps ++ qs))) as [d|e]; [|done].
  cbn [lift]. rewrite bind_run.
  replace (pre ++ l :: post) with ((pre ++ [l]) ++ post) in * by by rewrite <- app_assoc.
  rewrite (IH (pre ++ [l]) (ps ++ [p])); [| done |].
  - destruct (distancesFrom (ps ++ [p]) qs); reflexivity.
  - apply Forall2_app; [done|]. by repeat constructor.
Qed.

Lemma nearestDistances_run h features ps :
  NoDup features → datasetIn h features ps →
  nearestDistances features h = lift (distancesOf ps) h.
Proof.
  intros Hnd Hps. apply (nearestDistances_from h [] features [] ps); try done.
  constructor.
Qed.

End RunFacts.

(** ** The whole call *)

Section CallFacts.
Context {L : GeometryLib}.

Lemma attachAnalysis_ok h l f props n obs :
  h !! l = Some f → properties f = Some props →
  attachAnalysis (SAFeature l) n obs h =
    Ok (l, <[l := annotate f props
                    (calculateNearestNeighborStatistics n obs (area (geometry f) * micro)%float)]> h).
Proof.
  intros Hl Hp. unfold attachAnalysis.
  rewrite bind_run, (deref_ok _ _ _ Hl). cbn beta iota. rewrite Hp.
  reflexivity.
Qed.

Lemma attachAnalysis_inv h sa n obs r h' :
  attachAnalysis sa n obs h = Ok (r, h') →
  sa = SAFeature r ∧
  ∃ f props, h !! r = Some f ∧ properties f = Some props ∧
    h' = <[r := annotate f props
                 (calculateNearestNeighborStatistics n obs (area (geometry f) * micro)%float)]> h.
Proof.
  destruct sa as [l|b]; [|discriminate].
  unfold attachAnalysis. rewrite bind_run. unfold deref.
  destruct (h !! l) as [f|] eqn:Hl; [|discriminate]. cbn beta iota.
  destruct (properties f) as [props|] eqn:Hp; [|discriminate].
  intros [= <- <-]. split; [done|]. by exists f, props.
Qed.

Lemma analysisOf_annotate (h : heap) r f props a :
  analysisOf r (<[r := annotate f props a]> h) = Some a.
Proof.
  unfold analysisOf. rewrite lookup_insert_eq. cbn.
  by rewrite lookup_insert_eq.
Qed.

(** The call, step by step: the study area, the centroids, the
    distances, the assignment. *)
Lemma nearestNeighbor_steps h ds gs options :
  datasetIn h ds gs →
  ∃ sa h0 features h1,
    resolveStudyArea ds options h = Ok (sa, h0) ∧
    collectCentroids ds h0 = Ok (features, h1) ∧
    h ⊆ h0 ∧ h0 ⊆ h1 ∧
    length features = length ds ∧
    nearestNeighbor ds options h =
      match distancesOf (centroid <$> gs) with
      | Ok values =>
          attachAnalysis sa (length ds) (Num.sum values / of_nat (length ds))%float h1
      | Throw e => Throw e
      end.
Proof.
  intros Hds.
  destruct (resolveStudyArea_run h ds gs options Hds) as (sa & h0 & Hres & Hsub0 & _).
  destruct (collectCentroids_run h0 ds gs (datasetIn_mono _ _ _ _ Hsub0 Hds))
    as (features & h1 & Hcol & Hgeo & Hnd & _ & Hsub1 & _).
  assert (Hlen : length features = length ds).
  { rewrite (Forall2_length _ _ _ Hgeo). eapply datasetIn_length, Hds. }
  exists sa, h0, features, h1. repeat split; try done.
  unfold nearestNeighbor.
  rewrite bind_run, Hres. cbn beta iota. rewrite bind_run, Hcol. cbn beta iota.
  rewrite bind_run, (nearestDistances_run h1 features (centroid <$> gs) Hnd).
  - rewrite Hlen. destruct (distancesOf (centroid <$> gs)); reflexivity.
  - apply Forall2_fmap_r. eapply Forall2_impl; [exact Hgeo|].
    intros l g Hl. unfold hasGeometry. by rewrite Hl.
Qed.

(** What a call that returns has done. *)
Lemma nearestNeighbor_inv h ds gs options r h' :
  datasetIn h ds gs →
  nearestNeighbor ds options h = Ok (r, h') →
  ∃ values f props h1,
    distancesOf (centroid <$> gs) = Ok values ∧
    h ⊆ h1 ∧ h1 !! r = Some f ∧ properties f = Some props ∧
    studyAreaOrigin h gs options r f ∧
    h' = <[r := annotate f props (statisticsFor (length ds) values (geometry f))]> h1.
Proof.
  intros Hds Hrun.
  destruct (nearestNeighbor_steps h ds gs options Hds)
    as (sa & h0 & features & h1 & Hres & _ & Hsub0 & Hsub1 & _ & Heq).
  rewrite Heq in Hrun.
  destruct (distancesOf (centroid <$> gs)) as [values|e]; [|discriminate].
  apply attachAnalysis_inv in Hrun as (-> & f & props & Hr & Hp & ->).
  exists values, f, props, h1. repeat split; try done; [by etrans|].
  unfold studyAreaOrigin.
  destruct (studyArea (default {| studyArea := None |} options)) as [[l|b]|] eqn:Hopt.
  - rewrite (resolveStudyArea_feature _ _ _ _ Hopt) in Hres.
    injection Hres as Hr' Hh0; subst. split; [done|].
    intros [f' Hf']. rewrite Hf'. f_equal.
    eapply lookup_weaken in Hf'; [|exact Hsub1]. congruence.
  - rewrite (resolveStudyArea_array _ _ _ _ Hopt) in Hres.
    destruct (decide (length b = 4)); [|discriminate].
    injection Hres as Hr' Hh0; subst. split; [done|]. split; [apply alloc_fresh|].
    pose proof (lookup_insert_eq h (fresh (dom h)) (feature (bboxPolygon b))) as Hf'.
    eapply lookup_weaken in Hf'; [|exact Hsub1]. congruence.
  - rewrite (resolveStudyArea_absent _ _ _ _ Hds Hopt) in Hres.
    injection Hres as Hr' Hh0; subst. split; [apply alloc_fresh|].
    pose proof (lookup_insert_eq h (fresh (dom h)) (feature (bboxPolygon (bbox gs)))) as Hf'.
    eapply lookup_weaken in Hf'; [|exact Hsub1]. congruence.
Qed.

(** When the call returns: the collaborators gave a distance for every
    point and the study area can take the assignment. *)
Lemma nearestNeighbor_ok h ds gs options values :
  datasetIn h ds gs →
  distancesOf (centroid <$> gs) = Ok values →
  studyAreaUsable h options →
  ∃ r h', nearestNeighbor ds options h = Ok (r, h').
Proof.
  intros Hds Hvals Huse.
  destruct (nearestNeighbor_steps h ds gs options Hds)
    as (sa & h0 & features & h1 & Hres & _ & Hsub0 & Hsub1 & _ & Heq).
  rewrite Heq, Hvals. unfold studyAreaUsable in Huse.
  destruct (studyArea (default {| studyArea := None |} options)) as [[l|b]|] eqn:Hopt.
  - destruct Huse as (f & props & Hl & Hp).
    rewrite (resolveStudyArea_feature _ _ _ _ Hopt) in Hres.
    injection Hres as Hr' Hh0; subst.
    eapply lookup_weaken in Hl; [|exact Hsub1].
    rewrite (attachAnalysis_ok _ _ _ _ _ _ Hl Hp). eauto.
  - rewrite (resolveStudyArea_array _ _ _ _ Hopt) in Hres.
    destruct (decide (length b = 4)); [|done].
    injection Hres as Hr' Hh0; subst.
    pose proof (lookup_insert_eq h (fresh (dom h)) (feature (bboxPolygon b))) as Hf'.
    eapply lookup_weaken in Hf'; [|exact Hsub1].
    rewrite (attachAnalysis_ok _ _ _ ∅ _ _ Hf'); eauto.
  - rewrite (resolveStudyArea_absent _ _ _ _ Hds Hopt) in Hres.
    injection Hres as Hr' Hh0; subst.
    pose proof (lookup_insert_eq h (fresh (dom h)) (feature (bboxPolygon (bbox gs)))) as Hf'.
    eapply lookup_weaken in Hf'; [|exact Hsub1].
    rewrite (attachAnalysis_ok _ _ _ ∅ _ _ Hf'); eauto.
Qed.

End CallFacts.

(** ** The module's export *)

(** C1.  The default export of [index.js] is the identifier [circle]; the
    module scope binds the eight imports and [nearestNeighbor], and no
    [circle]: evaluating the module ends in a [ReferenceError], and no
    function is exported. *)
Theorem default_export_is_unbound :
  ("nearestNeighbor" ∈ EsModule.moduleScope EsModule.index_js) ∧
  ("circle" ∉ EsModule.moduleScope EsModule.index_js) ∧
  EsModule.evaluate EsModule.index_js = Throw (ReferenceError "circle is not defined").
Proof.
  split; [|split].
  - apply (bool_decide_unpack _). vm_compute. exact I.
  - apply (bool_decide_unpack _). vm_compute. exact I.
  - reflexivity.
Qed.

(** ** The statistics *)

Section Statistics.
Context {L : GeometryLib}.

(** The code's formulas are the specification's, on the area times
    [1e-6]. *)
Lemma calculate_is_ClarkEvans n obs areaSqM :
  let areaSqKm := ClarkEvans.sqMetersToSqKm areaSqM in
  calculateNearestNeighborStatistics n obs (areaSqM * micro)%float =
    {| observedMeanDistance := obs;
       expectedMeanDistance := ClarkEvans.expectedMeanDistance n areaSqKm;
       nearestNeighborIndex := ClarkEvans.nearestNeighborIndex n obs areaSqKm;
       numberOfPoints := n;
       zScore := ClarkEvans.zScore n obs areaSqKm |}.
Proof. reflexivity. Qed.

(** C3.  On a call that returns, for [n >= 1] features, an observed mean
    distance [>= 0] and a study area of positive area, the analysis
    attached to the returned study area is the closed-form Clark-Evans
    statistics on the observed mean of the nearest distances and the area
    converted to square kilometres ([area * 1e-6]): the population
    density [n / areaSqKm], the expected mean distance
    [1 / (2 * sqrt popDensity)], the variance
    [0.26136 / sqrt (n * popDensity)], the index [observed / expected]
    and the z-score [(observed - expected) / variance]. *)
Theorem statistics_are_clark_evans h ds gs options r h' :
  datasetIn h ds gs →
  nearestNeighbor ds options h = Ok (r, h') →
  ∃ f a values,
    h' !! r = Some f ∧ analysisOf r h' = Some a ∧
    distancesOf (centroid <$> gs) = Ok values ∧
    let n := length ds in
    let observed := observedMeanDistance a in
    let areaSqKm := ClarkEvans.sqMetersToSqKm (area (geometry f)) in
    observed = (Num.sum values / of_nat n)%float ∧
    (1 ≤ n → PrimFloat.leb 0 observed = true →
     PrimFloat.ltb 0 (area (geometry f)) = true →
     popDensity n (area (geometry f) * micro)%float = ClarkEvans.popDensity n areaSqKm ∧
     variance n (popDensity n (area (geometry f) * micro)%float)
       = ClarkEvans.variance n areaSqKm ∧
     numberOfPoints a = n ∧
     expectedMeanDistance a = ClarkEvans.expectedMeanDistance n areaSqKm ∧
     nearestNeighborIndex a = ClarkEvans.nearestNeighborIndex n observed areaSqKm ∧
     zScore a = ClarkEvans.zScore n observed areaSqKm).
Proof.
  intros Hds Hrun.
  destruct (nearestNeighbor_inv h ds gs options r h' Hds Hrun)
    as (values & f & props & h1 & Hvals & _ & _ & _ & _ & ->).
  eexists _, _, values. split; [apply lookup_insert_eq|].
  split; [apply analysisOf_annotate|]. split; [done|].
  intros n observed areaSqKm. split; [reflexivity|].
  intros _ _ _. subst observed areaSqKm.
  unfold statisticsFor. cbn [annotate geometry].
  rewrite calculate_is_ClarkEvans. cbn. repeat split; reflexivity.
Qed.

(** C7.  On a call that returns, [numberOfPoints] is the number of
    features of the dataset, whatever their geometries. *)
Theorem numberOfPoints_is_feature_count h ds gs options r h' :
  datasetIn h ds gs →
  nearestNeighbor ds options h = Ok (r, h') →
  ∃ a, analysisOf r h' = Some a ∧ numberOfPoints a = length ds.
Proof.
  intros Hds Hrun.
  destruct (nearestNeighbor_inv h ds gs options r h' Hds Hrun)
    as (values & f & props & h1 & _ & _ & _ & _ & _ & ->).
  eexists. split; [apply analysisOf_annotate|]. reflexivity.
Qed.

End Statistics.

Lemma statistics_are_clark_evans_witness :
  ∃ r h' f a,
    nearestNeighbor (L:=Planar.lib) (Samples.refsOf Samples.corners) None
                    (Samples.heapOf Samples.corners) = Ok (r, h') ∧
    h' !! r = Some f ∧ analysisOf r h' = Some a ∧
    expectedMeanDistance a =
      ClarkEvans.expectedMeanDistance 4
        (ClarkEvans.sqMetersToSqKm (area (GeometryLib:=Planar.lib) (geometry f))) ∧
    zScore a =
      ClarkEvans.zScore 4 (observedMeanDistance a)
        (ClarkEvans.sqMetersToSqKm (area (GeometryLib:=Planar.lib) (geometry f))).
Proof.
  destruct (nearestNeighbor (L:=Planar.lib) (Samples.refsOf Samples.corners) None
                            (Samples.heapOf Samples.corners))
    as [[r h']|e] eqn:Hrun; [|vm_compute in Hrun; discriminate].
  assert (Hds : datasetIn (Samples.heapOf Samples.corners)
                          (Samples.refsOf Samples.corners) Samples.corners)
    by on_sample_store.
  destruct (statistics_are_clark_evans _ _ _ _ _ _ Hds Hrun)
    as (f & a & values & Hf & Ha & _ & _ & Hstat).
  exists r, h', f, a. split; [done|]. split; [done|]. split; [done|].
  assert (Hrun' := Hrun). vm_compute in Hrun'. injection Hrun' as <- <-.
  vm_compute in Hf. injection Hf as <-.
  vm_compute in Ha. injection Ha as <-.
  destruct Hstat as (_ & _ & _ & He & _ & Hz);
    [cbn; lia|vm_compute; reflexivity|vm_compute; reflexivity|].
  split; [exact He|exact Hz].
Defined.

Lemma numberOfPoints_is_feature_count_witness :
  ∃ r h' a,
    nearestNeighbor (L:=Planar.lib) (Samples.refsOf Samples.mixed) None
                    (Samples.heapOf Samples.mixed) = Ok (r, h') ∧
    analysisOf r h' = Some a ∧ numberOfPoints a = 3.
Proof.
  destruct (nearestNeighbor (L:=Planar.lib) (Samples.refsOf Samples.mixed) None
                            (Samples.heapOf Samples.mixed))
    as [[r h']|e] eqn:Hrun; [|vm_compute in Hrun; discriminate].
  assert (Hds : datasetIn (Samples.heapOf Samples.mixed)
                          (Samples.refsOf Samples.mixed) Samples.mixed)
    by on_sample_store.
  destruct (numberOfPoints_is_feature_count _ _ _ _ _ _ Hds Hrun) as (a & Ha & Hn).
  exists r, h', a. done.
Defined.

(** ** The study area *)

Section StudyAreas.
Context {L : GeometryLib}.

(** C5.  The study area resolves to one polygon feature, in three ways:
    without [options.studyArea], a new feature holding the rectangle
    [bboxPolygon (bbox dataset)]; from an array of four numbers [b], a
    new feature holding [bboxPolygon b], the same routine; from a polygon
    feature, that very feature, the store unchanged. *)
Theorem studyArea_resolution h ds gs options :
  datasetIn h ds gs →
  studyAreaSupported h options →
  ∃ l h0 f,
    resolveStudyArea ds options h = Ok (SAFeature l, h0) ∧
    h0 !! l = Some f ∧ isPolygon (geometry f) = true ∧
    match studyArea (default {| studyArea := None |} options) with
    | None =>
        h !! l = None ∧ f = feature (bboxPolygon (bbox gs)) ∧ h0 = <[l := f]> h
    | Some (SAArray b) =>
        h !! l = None ∧ f = feature (bboxPolygon b) ∧ h0 = <[l := f]> h
    | Some (SAFeature l0) =>
        l = l0 ∧ h0 = h
    end.
Proof.
  intros Hds Hsup. unfold studyAreaSupported in Hsup.
  destruct (studyArea (default {| studyArea := None |} options)) as [[l|b]|] eqn:Hopt.
  - destruct Hsup as (f & Hl & Hpoly).
    exists l, h, f. by rewrite (resolveStudyArea_feature _ _ _ _ Hopt).
  - rewrite (resolveStudyArea_array _ _ _ _ Hopt).
    destruct (decide (length b = 4)); [|done].
    eexists _, _, _. split; [done|]. split; [apply lookup_insert_eq|].
    split; [apply bboxPolygon_polygon|]. split; [apply alloc_fresh|done].
  - rewrite (resolveStudyArea_absent _ _ _ _ Hds Hopt).
    eexists _, _, _. split; [done|]. split; [apply lookup_insert_eq|].
    split; [apply bboxPolygon_polygon|]. split; [apply alloc_fresh|done].
Qed.

(** C10.  Given a feature as [options.studyArea], a call that returns
    returns that very reference, and the object behind it has changed in
    place: same geometry, the key [nearestNeighborAnalysis] of its
    property map now holding the analysis (whatever it held), every
    other key as before.  The caller's object differs from what it was
    unless it already held that analysis. *)
Theorem studyArea_mutated_in_place h ds gs options l f r h' :
  datasetIn h ds gs →
  studyArea (default {| studyArea := None |} options) = Some (SAFeature l) →
  h !! l = Some f →
  nearestNeighbor ds options h = Ok (r, h') →
  r = l ∧
  ∃ props props' a,
    properties f = Some props ∧
    h' !! l = Some {| geometry := geometry f; properties := Some props' |} ∧
    props' !! analysisKey = Some (VAnalysis a) ∧
    (∀ k, k ≠ analysisKey → props' !! k = props !! k) ∧
    (props !! analysisKey ≠ Some (VAnalysis a) → h' !! l ≠ h !! l).
Proof.
  intros Hds Hopt Hl Hrun.
  destruct (nearestNeighbor_inv h ds gs options r h' Hds Hrun)
    as (values & f' & props & h1 & _ & Hsub & Hr & Hp & Horigin & ->).
  unfold studyAreaOrigin in Horigin. rewrite Hopt in Horigin.
  destruct Horigin as [-> Hf]. specialize (Hf (mk_is_Some _ _ Hl)).
  assert (f' = f) as -> by congruence.
  split; [done|]. eexists props, _, _. split; [done|].
  split; [apply lookup_insert_eq|]. split; [apply lookup_insert_eq|].
  split.
  - intros k Hk. by apply lookup_insert_ne.
  - intros Hnew. rewrite lookup_insert_eq, Hl. intros [= Heq].
    apply (f_equal properties) in Heq. cbn in Heq. rewrite Hp in Heq.
    injection Heq as Heq. apply Hnew. rewrite <- Heq. apply lookup_insert_eq.
Qed.

End StudyAreas.

Lemma studyArea_resolution_witness :
  ∃ l h0 f,
    resolveStudyArea (L:=Planar.lib) (Samples.refsOf Samples.corners)
      (Some {| studyArea := Some (SAArray [0; 0; 1; 1]%float) |})
      (Samples.heapOf Samples.corners) = Ok (SAFeature l, h0) ∧
    h0 !! l = Some f ∧ isPolygon (geometry f) = true ∧
    f = feature Samples.unitSquare.
Proof.
  assert (Hds : datasetIn (Samples.heapOf Samples.corners)
                          (Samples.refsOf Samples.corners) Samples.corners)
    by on_sample_store.
  assert (Hsup : studyAreaSupported (Samples.heapOf Samples.corners)
                   (Some {| studyArea := Some (SAArray [0; 0; 1; 1]%float) |}))
    by reflexivity.
  destruct (studyArea_resolution (L:=Planar.lib) _ _ _ _ Hds Hsup)
    as (l & h0 & f & Hres & Hl & Hpoly & _ & Hf & _).
  exists l, h0, f. repeat split; done.
Defined.

Lemma studyArea_mutated_in_place_witness :
  ∃ h' props',
    nearestNeighbor (L:=Planar.lib) (Samples.refsAfterArea Samples.corners)
      Samples.useArea (Samples.heapWithArea Samples.corners) = Ok (1%positive, h') ∧
    h' !! 1%positive = Some {| geometry := Samples.unitSquare; properties := Some props' |} ∧
    props' !! "name" = Some (VString "plot") ∧
    h' !! 1%positive ≠ Samples.heapWithArea Samples.corners !! 1%positive.
Proof.
  destruct (nearestNeighbor (L:=Planar.lib) (Samples.refsAfterArea Samples.corners)
              Samples.useArea (Samples.heapWithArea Samples.corners))
    as [[r h']|e] eqn:Hrun; [|vm_compute in Hrun; discriminate].
  assert (Hds : datasetIn (Samples.heapWithArea Samples.corners)
                          (Samples.refsAfterArea Samples.corners) Samples.corners)
    by on_sample_store.
  destruct (studyArea_mutated_in_place (L:=Planar.lib) _ _ _ Samples.useArea
              1%positive Samples.ownArea _ _ Hds eq_refl eq_refl Hrun)
    as (-> & props & props' & a & Hp & Hl & Ha & Hkeys & Hchanged).
  injection Hp as <-.
  exists h', props'. split; [done|]. split; [exact Hl|]. split.
  - rewrite Hkeys by done. reflexivity.
  - apply Hchanged. vm_compute. discriminate.
Defined.

(** ** Calling twice *)

Section Repeat.
Context {L : GeometryLib}.

(** Writing the analysis into an object leaves every geometry of the
    store as it was. *)
Lemma datasetIn_annotate h h1 ds gs r f props a :
  datasetIn h ds gs → h ⊆ h1 → h1 !! r = Some f →
  datasetIn (<[r := annotate f props a]> h1) ds gs.
Proof.
  intros Hds Hsub Hr. unfold datasetIn in *.
  eapply Forall2_impl; [exact Hds|]. intros l g Hl.
  apply (hasGeometry_mono _ _ _ _ Hsub) in Hl.
  apply hasGeometry_lookup in Hl as (fl & Hl & <-).
  apply hasGeometry_lookup. destruct (decide (l = r)) as [->|Hne].
  - exists (annotate f props a). rewrite lookup_insert_eq. split; [done|].
    cbn. congruence.
  - exists fl. by rewrite lookup_insert_ne.
Qed.

(** C9.  A second call on the same dataset and options, on the store the
    first call left (the caller changed nothing in between), returns
    too, and the analysis it attaches equals the first one, field for
    field. *)
Theorem second_call_same_statistics h ds gs options r1 h1 :
  datasetIn h ds gs →
  nearestNeighbor ds options h = Ok (r1, h1) →
  ∃ r2 h2 a,
    nearestNeighbor ds options h1 = Ok (r2, h2) ∧
    analysisOf r1 h1 = Some a ∧ analysisOf r2 h2 = Some a.
Proof.
  intros Hds Hrun1.
  destruct (nearestNeighbor_inv h ds gs options r1 h1 Hds Hrun1)
    as (values & f & props & k1 & Hvals & Hsub & Hr & Hp & Horigin & ->).
  set (a1 := statisticsFor (length ds) values (geometry f)) in *.
  set (h1 := <[r1 := annotate f props a1]> k1) in *.
  assert (Hds1 : datasetIn h1 ds gs) by by eapply datasetIn_annotate.
  assert (Huse : studyAreaUsable h1 options).
  { unfold studyAreaUsable, studyAreaOrigin in *.
    destruct (studyArea (default {| studyArea := None |} options)) as [[l|b]|];
      [|tauto|done].
    destruct Horigin as [-> _]. eexists _, _.
    split; [apply lookup_insert_eq|reflexivity]. }
  destruct (nearestNeighbor_ok h1 ds gs options values Hds1 Hvals Huse)
    as (r2 & h2 & Hrun2).
  destruct (nearestNeighbor_inv h1 ds gs options r2 h2 Hds1 Hrun2)
    as (values2 & f2 & props2 & k2 & Hvals2 & Hsub2 & Hr2 & Hp2 & Horigin2 & ->).
  assert (values2 = values) as -> by congruence.
  eexists r2, _, a1. split; [done|]. split; [apply analysisOf_annotate|].
  rewrite analysisOf_annotate. f_equal. subst a1. f_equal.
  unfold studyAreaOrigin in *.
  destruct (studyArea (default {| studyArea := None |} options)) as [[l|b]|].
  - destruct Horigin as [-> _], Horigin2 as [-> _].
    assert (Hl : h1 !! l = Some (annotate f props (statisticsFor (length ds) values (geometry f))))
      by apply lookup_insert_eq.
    eapply lookup_weaken in Hl; [|exact Hsub2].
    rewrite Hl in Hr2. by injection Hr2 as <-.
  - destruct Horigin as (_ & _ & ->), Horigin2 as (_ & _ & ->). done.
  - destruct Horigin as (_ & ->), Horigin2 as (_ & ->). done.
Qed.

End Repeat.

Lemma second_call_same_statistics_witness :
  ∃ r1 h1 r2 h2 a,
    nearestNeighbor (L:=Planar.lib) (Samples.refsAfterArea Samples.corners)
      Samples.useArea (Samples.heapWithArea Samples.corners) = Ok (r1, h1) ∧
    nearestNeighbor (L:=Planar.lib) (Samples.refsAfterArea Samples.corners)
      Samples.useArea h1 = Ok (r2, h2) ∧
    analysisOf r1 h1 = Some a ∧ analysisOf r2 h2 = Some a.
Proof.
  destruct (nearestNeighbor (L:=Planar.lib) (Samples.refsAfterArea Samples.corners)
              Samples.useArea (Samples.heapWithArea Samples.corners))
    as [[r1 h1]|e] eqn:Hrun; [|vm_compute in Hrun; discriminate].
  assert (Hds : datasetIn (Samples.heapWithArea Samples.corners)
                          (Samples.refsAfterArea Samples.corners) Samples.corners)
    by on_sample_store.
  destruct (second_call_same_statistics (L:=Planar.lib) _ _ _ _ _ _ Hds Hrun)
    as (r2 & h2 & a & Hrun2 & Ha1 & Ha2).
  by exists r1, h1, r2, h2, a.
Defined.

(** ** Identity, not coordinates *)

Section Identity.
Context {L : GeometryLib}.

(** The callback of [features.map] at position [i]: the candidates are
    the centroids at every other position. *)
Lemma nearestDistance_at h1 features gs i fi gi :
  NoDup features →
  Forall2 (λ l g, h1 !! l = Some (feature (centroid g))) features gs →
  features !! i = Some fi → gs !! i = Some gi →
  nearestDistance features fi h1 =
    lift (distance (centroid gi)
                   (nearestPoint (centroid gi) (delete i (centroid <$> gs)))) h1.
Proof.
  intros Hnd Hgeo Hfi Hgi.
  assert (Hin : datasetIn h1 features (centroid <$> gs)).
  { apply Forall2_fmap_r. eapply Forall2_impl; [exact Hgeo|].
    intros l g Hl. unfold hasGeometry. by rewrite Hl. }
  rewrite <- (take_drop_middle features i fi Hfi) in Hnd |- *.
  rewrite (nearestDistance_run h1 (take i features) (drop (S i) features) fi
             (take i (centroid <$> gs)) (drop (S i) (centroid <$> gs))
             (centroid gi) Hnd).
  - by rewrite delete_take_drop.
  - by apply Forall2_take.
  - by apply Forall2_drop.
  - unfold hasGeometry.
    by rewrite (Forall2_lookup_lr _ _ _ _ _ _ Hgeo Hfi Hgi).
Qed.

(** A candidate at the point's own coordinates makes the nearest
    distance zero, when the collaborators search and measure as they
    should. *)
Lemma nearest_distance_zero (p : Geometry) (cands : list Geometry) :
  p ∈ cands → nearestSearchCorrect p cands → zeroDistance p →
  ∃ d, distance p (nearestPoint p cands) = Ok d ∧ is_zero d = true.
Proof.
  intros Hin (q & dq & Hq & Hdq & Hnn & Hmin) (z & Hz & Hz0).
  destruct (Hmin p Hin) as (dc & Hdc & Hle).
  assert (dc = z) as -> by congruence.
  exists dq. rewrite Hq. split; [done|].
  by apply (le_zero_not_neg dq z).
Qed.

Lemma elem_of_delete_other {A} (xs : list A) (i j : nat) (x : A) :
  i ≠ j → xs !! j = Some x → x ∈ delete i xs.
Proof.
  intros Hne Hx. apply list_elem_of_lookup.
  destruct (decide (j < i)).
  - exists j. by rewrite list_lookup_delete_lt.
  - exists (pred j). rewrite list_lookup_delete_ge by lia.
    by replace (S (pred j)) with j by lia.
Qed.

End Identity.

(** ** The worked example of section 8 *)

Section WorkedExample.
Context {L : GeometryLib}.

Import Samples.

(** C4.  Four point features at (0,0), (0,1), (1,0), (1,1), no study area
    given, so that it is the polygon of their bounding box; the
    collaborators measure as on a plane (a point is its own centroid,
    each point's nearest neighbour is at distance 1) and the box has area
    1 in the unit of the distances, squared (a million square metres).
    Then the call returns with [observedMeanDistance = 1], a population
    density of 4, [expectedMeanDistance = 0.25] and
    [nearestNeighborIndex = 4]. *)
Theorem unit_square_example h ds :
  datasetIn h ds Samples.corners →
  centroid <$> Samples.corners = Samples.corners →
  distance p00 (nearestPoint p00 [p01; p10; p11]) = Ok 1%float →
  distance p01 (nearestPoint p01 [p00; p10; p11]) = Ok 1%float →
  distance p10 (nearestPoint p10 [p00; p01; p11]) = Ok 1%float →
  distance p11 (nearestPoint p11 [p00; p01; p10]) = Ok 1%float →
  (area (bboxPolygon (bbox Samples.corners)) * micro)%float = 1%float →
  ∃ r h' f a,
    nearestNeighbor ds None h = Ok (r, h') ∧
    h' !! r = Some f ∧ geometry f = bboxPolygon (bbox Samples.corners) ∧
    analysisOf r h' = Some a ∧
    numberOfPoints a = 4 ∧
    observedMeanDistance a = 1%float ∧
    popDensity 4 (area (geometry f) * micro)%float = 4%float ∧
    expectedMeanDistance a = 0.25%float ∧
    nearestNeighborIndex a = 4%float.
Proof.
  intros Hds Hcent H00 H01 H10 H11 Harea.
  assert (Hvals : distancesOf (centroid <$> Samples.corners) = Ok [1; 1; 1; 1]%float).
  { rewrite Hcent. unfold distancesOf, Samples.corners. cbn [distancesFrom app].
    by rewrite H00, H01, H10, H11. }
  destruct (nearestNeighbor_ok h ds _ None _ Hds Hvals I) as (r & h' & Hrun).
  destruct (nearestNeighbor_inv h ds _ None r h' Hds Hrun)
    as (values & f & props & h1 & Hvals' & _ & _ & _ & [_ ->] & ->).
  assert (values = [1; 1; 1; 1]%float) as -> by congruence.
  eexists r, _, _, _. split; [done|]. split; [apply lookup_insert_eq|].
  split; [done|]. split; [apply analysisOf_annotate|].
  rewrite <- (datasetIn_length _ _ _ Hds).
  unfold statisticsFor, calculateNearestNeighborStatistics. cbn [geometry feature annotate].
  rewrite Harea. repeat split; reflexivity.
Qed.

End WorkedExample.

Lemma unit_square_example_witness :
  ∃ r h' a,
    nearestNeighbor (L:=Planar.lib) (Samples.refsOf Samples.corners) None
                    (Samples.heapOf Samples.corners) = Ok (r, h') ∧
    analysisOf r h' = Some a ∧
    observedMeanDistance a = 1%float ∧
    expectedMeanDistance a = 0.25%float ∧
    nearestNeighborIndex a = 4%float.
Proof.
  assert (Hds : datasetIn (Samples.heapOf Samples.corners)
                          (Samples.refsOf Samples.corners) Samples.corners)
    by on_sample_store.
  destruct (unit_square_example (L:=Planar.lib) _ _ Hds)
    as (r & h' & f & a & Hrun & _ & _ & Ha & _ & Hobs & _ & Hexp & Hidx);
    try (vm_compute; reflexivity).
  by exists r, h', a.
Defined.

(** ** Inputs the formula is not defined on *)

Section Unguarded.
Context {L : GeometryLib}.

(** C2, as the code has it.  No dataset is rejected for its size.  On an
    empty dataset the call returns the study area with an analysis of
    [numberOfPoints = 0] whose observed mean distance is [0 / 0], that is
    NaN, as are the index and the z-score.  On a dataset of one feature
    the candidates of the only point are none, and the call does what
    [distance] does on the answer of [nearestPoint]: its exception is the
    call's, and a distance [d] it returns goes into the formula with
    [n = 1] and the observed mean [(0 + d) / 1]. *)
Theorem small_dataset_not_rejected h options :
  studyAreaUsable h options →
  (∃ r h' a,
      nearestNeighbor [] options h = Ok (r, h') ∧ analysisOf r h' = Some a ∧
      numberOfPoints a = 0 ∧ observedMeanDistance a = nan ∧
      nearestNeighborIndex a = nan ∧ zScore a = nan) ∧
  (∀ l g, hasGeometry h l g →
     match distance (centroid g) (nearestPoint (centroid g) []) with
     | Ok d =>
         ∃ r h' a,
           nearestNeighbor [l] options h = Ok (r, h') ∧ analysisOf r h' = Some a ∧
           numberOfPoints a = 1 ∧ observedMeanDistance a = ((0 + d) / 1)%float
     | Throw e => nearestNeighbor [l] options h = Throw e
     end).
Proof.
  intros Huse. split.
  - assert (Hds : datasetIn h [] []) by constructor.
    destruct (nearestNeighbor_ok h [] [] options [] Hds eq_refl Huse) as (r & h' & Hrun).
    destruct (nearestNeighbor_inv h [] [] options r h' Hds Hrun)
      as (values & f & props & h1 & [= <-] & _ & _ & _ & _ & ->).
    eexists r, _, _. split; [done|]. split; [apply analysisOf_annotate|].
    unfold statisticsFor, calculateNearestNeighborStatistics.
    cbn [numberOfPoints observedMeanDistance nearestNeighborIndex zScore length].
    change (Num.sum [] / of_nat 0)%float with nan.
    by rewrite nan_div, nan_sub, nan_div.
  - intros l g Hl.
    assert (Hds : datasetIn h [l] [g]) by by repeat constructor.
    assert (Hvals : distancesOf (centroid <$> [g]) =
                    match distance (centroid g) (nearestPoint (centroid g) []) with
                    | Ok d => Ok [d]
                    | Throw e => Throw e
                    end).
    { unfold distancesOf. cbn.
      by destruct (distance (centroid g) (nearestPoint (centroid g) [])). }
    destruct (distance (centroid g) (nearestPoint (centroid g) [])) as [d|e].
    + destruct (nearestNeighbor_ok h [l] [g] options [d] Hds Hvals Huse)
        as (r & h' & Hrun).
      destruct (nearestNeighbor_inv h [l] [g] options r h' Hds Hrun)
        as (values & f & props & h1 & Hvals' & _ & _ & _ & _ & ->).
      assert (values = [d]) as -> by congruence.
      eexists r, _, _. split; [done|]. split; [apply analysisOf_annotate|].
      split; reflexivity.
    + destruct (nearestNeighbor_steps h [l] [g] options Hds)
        as (sa & h0 & features & h1 & _ & _ & _ & _ & _ & Heq).
      by rewrite Heq, Hvals.
Qed.

(** C6, as the code has it.  No study area is rejected for its area.
    Whenever the collaborators give the distances and the study area can
    take the assignment, the call returns, and the analysis is the
    formula on [area * 0.000001] whatever the area is; for an area of
    zero that argument is zero and the population density is the
    quotient [n / 0]. *)
Theorem degenerate_area_not_rejected h ds gs options values :
  datasetIn h ds gs →
  distancesOf (centroid <$> gs) = Ok values →
  studyAreaUsable h options →
  ∃ r h' f a,
    nearestNeighbor ds options h = Ok (r, h') ∧
    h' !! r = Some f ∧ analysisOf r h' = Some a ∧
    let n := length ds in
    let observed := (Num.sum values / of_nat n)%float in
    a = calculateNearestNeighborStatistics n observed (area (geometry f) * micro)%float ∧
    (area (geometry f) = 0%float →
       a = calculateNearestNeighborStatistics n observed 0%float ∧
       expectedMeanDistance a = (1 / (2 * PrimFloat.sqrt (of_nat n / 0)))%float).
Proof.
  intros Hds Hvals Huse.
  destruct (nearestNeighbor_ok h ds gs options values Hds Hvals Huse) as (r & h' & Hrun).
  destruct (nearestNeighbor_inv h ds gs options r h' Hds Hrun)
    as (values' & f & props & h1 & Hvals' & _ & _ & _ & _ & ->).
  assert (values' = values) as -> by congruence.
  eexists r, _, _, _. split; [done|]. split; [apply lookup_insert_eq|].
  split; [apply analysisOf_annotate|].
  cbn [annotate geometry]. split; [reflexivity|].
  intros Hzero. unfold statisticsFor. rewrite Hzero.
  change (0 * micro)%float with 0%float. split; reflexivity.
Qed.

End Unguarded.

(** Against C2 as stated: an empty dataset, with the caller's unit square
    as study area, gives no exception and an analysis of NaN and
    infinity. *)
Lemma empty_dataset_yields_nan :
  match nearestNeighbor (L:=Planar.lib) [] Samples.useArea (Samples.heapWithArea []) with
  | Ok (r, h') =>
      analysisOf r h' =
        Some {| observedMeanDistance := nan;
                expectedMeanDistance := infinity;
                nearestNeighborIndex := nan;
                numberOfPoints := 0;
                zScore := nan |}
  | Throw _ => False
  end.
Proof. vm_compute. reflexivity. Qed.

(** Against C6 as stated: two points on a horizontal line and no study
    area given; the bounding box has area zero, there is no exception, and
    the analysis holds infinities. *)
Lemma zero_area_yields_infinity :
  match nearestNeighbor (L:=Planar.lib) (Samples.refsOf Samples.collinear) None
                        (Samples.heapOf Samples.collinear) with
  | Ok (r, h') =>
      (area (GeometryLib:=Planar.lib) <$> (geometry <$> h' !! r)) = Some 0%float ∧
      analysisOf r h' =
        Some {| observedMeanDistance := 1;
                expectedMeanDistance := 0;
                nearestNeighborIndex := infinity;
                numberOfPoints := 2;
                zScore := infinity |}
  | Throw _ => False
  end.
Proof. vm_compute. split; reflexivity. Qed.

Lemma small_dataset_not_rejected_witness :
  (∃ r h' a,
      nearestNeighbor (L:=Planar.lib) [] Samples.useArea
                      (Samples.heapWithArea [Point (2, 3)%float]) = Ok (r, h') ∧
      analysisOf r h' = Some a ∧ numberOfPoints a = 0 ∧ observedMeanDistance a = nan) ∧
  nearestNeighbor (L:=Planar.lib) [2%positive] Samples.useArea
                  (Samples.heapWithArea [Point (2, 3)%float])
    = Throw (Error "coord is required").
Proof.
  assert (Huse : studyAreaUsable (Samples.heapWithArea [Point (2, 3)%float]) Samples.useArea).
  { exists Samples.ownArea, {[ "name" := VString "plot"; analysisKey := VNumber 7 ]}.
    split; reflexivity. }
  destruct (small_dataset_not_rejected (L:=Planar.lib) _ _ Huse)
    as [(r & h' & a & Hrun & Ha & Hn & Hobs & _) Hone].
  split.
  - by exists r, h', a.
  - exact (Hone 2%positive (Point (2, 3)%float) eq_refl).
Defined.

Lemma degenerate_area_not_rejected_witness :
  ∃ r h' f a,
    nearestNeighbor (L:=Planar.lib) (Samples.refsOf Samples.collinear) None
                    (Samples.heapOf Samples.collinear) = Ok (r, h') ∧
    h' !! r = Some f ∧ analysisOf r h' = Some a ∧
    area (GeometryLib:=Planar.lib) (geometry f) = 0%float ∧
    expectedMeanDistance a = 0%float.
Proof.
  assert (Hds : datasetIn (Samples.heapOf Samples.collinear)
                          (Samples.refsOf Samples.collinear) Samples.collinear)
    by on_sample_store.
  assert (Hvals : distancesOf (L:=Planar.lib)
                    (centroid (GeometryLib:=Planar.lib) <$> Samples.collinear)
                  = Ok [1; 1]%float) by reflexivity.
  destruct (degenerate_area_not_rejected (L:=Planar.lib) _ _ _ None _ Hds Hvals I)
    as (r & h' & f & a & Hrun & Hf & Ha & _ & Hzero).
  assert (Harea : area (GeometryLib:=Planar.lib) (geometry f) = 0%float).
  { assert (Hrun' := Hrun). vm_compute in Hrun'. injection Hrun' as <- <-.
    vm_compute in Hf. by injection Hf as <-. }
  exists r, h', f, a. repeat split; try done.
  destruct (Hzero Harea) as [_ ->]. reflexivity.
Defined.

(** ** The distances, position by position *)

Section ByPosition.
Context {L : GeometryLib}.

Lemma distanceAt_middle (pre post : list Geometry) (p : Geometry) :
  distanceAt (pre ++ p :: post) (length pre) =
    Some (distance p (nearestPoint p (pre ++ post))).
Proof.
  unfold distanceAt. rewrite list_lookup_middle by done. cbn.
  by rewrite delete_middle.
Qed.

Lemma distanceAt_shift (pre post : list Geometry) (p : Geometry) (k : nat) :
  distanceAt ((pre ++ [p]) ++ post) (length (pre ++ [p]) + k) =
  distanceAt (pre ++ p :: post) (length pre + S k).
Proof.
  rewrite <- app_assoc, length_app. cbn [app length].
  by replace (length pre + 1 + k) with (length pre + S k) by lia.
Qed.

Lemma distancesFrom_ok pre rest ds :
  distancesFrom pre rest = Ok ds ↔
  length ds = length rest ∧
  ∀ k d, ds !! k = Some d → distanceAt (pre ++ rest) (length pre + k) = Some (Ok d).
Proof.
  revert pre ds. induction rest as [|p post IH]; intros pre ds; cbn [distancesFrom].
  - split.
    + intros [= <-]. split; [done|]. intros k d Hk. by rewrite lookup_nil in Hk.
    + intros [Hlen _]. destruct ds; [done|discriminate].
  - pose proof (distanceAt_middle pre post p) as Hmid.
    destruct (distance p (nearestPoint p (pre ++ post))) as [d|e].
    + specialize (IH (pre ++ [p])).
      destruct (distancesFrom (pre ++ [p]) post) as [ds'|e'].
      * destruct (proj1 (IH ds') eq_refl) as [Hlen Hpos]. split.
        -- intros [= <-]. split; [cbn; by rewrite Hlen|].
           intros [|k] d' Hk; cbn in Hk.
           ++ injection Hk as <-. by rewrite Nat.add_0_r.
           ++ rewrite <- distanceAt_shift. by apply Hpos.
        -- intros [Hlen' Hpos']. destruct ds as [|d0 ds0]; [discriminate|].
           pose proof (Hpos' 0 d0 eq_refl) as H0.
           rewrite Nat.add_0_r, Hmid in H0. injection H0 as <-.
           do 2 f_equal. assert (Ok ds' = Ok ds0) as [= ->]; [|done].
           apply IH. split; [cbn in Hlen'; lia|].
           intros k d' Hk. rewrite distanceAt_shift. by apply (Hpos' (S k)).
      * split; [discriminate|]. intros [Hlen' Hpos'].
        destruct ds as [|d0 ds0]; [discriminate|]. exfalso.
        assert (Throw e' = Ok ds0) as Habs; [|discriminate].
        apply IH. split; [cbn in Hlen'; lia|].
        intros k d' Hk. rewrite distanceAt_shift. by apply (Hpos' (S k)).
    + split; [discriminate|]. intros [Hlen' Hpos'].
      destruct ds as [|d0 ds0]; [discriminate|].
      pose proof (Hpos' 0 d0 eq_refl) as H0.
      rewrite Nat.add_0_r, Hmid in H0. discriminate.
Qed.

Lemma distancesFrom_throw pre rest e :
  distancesFrom pre rest = Throw e ↔
  ∃ k, distanceAt (pre ++ rest) (length pre + k) = Some (Throw e) ∧
       ∀ j, j < k → ∃ d, distanceAt (pre ++ rest) (length pre + j) = Some (Ok d).
Proof.
  revert pre. induction rest as [|p post IH]; intros pre; cbn [distancesFrom].
  - split; [discriminate|]. intros (k & Hk & _).
    unfold distanceAt in Hk. rewrite app_nil_r, lookup_ge_None_2 in Hk by lia.
    discriminate.
  - pose proof (distanceAt_middle pre post p) as Hmid.
    destruct (distance p (nearestPoint p (pre ++ post))) as [d|e0].
    + specialize (IH (pre ++ [p])).
      assert (Hstep : distancesFrom (pre ++ [p]) post = Throw e ↔
                (∃ k, distanceAt (pre ++ p :: post) (length pre + k) = Some (Throw e) ∧
                   ∀ j, j < k → ∃ d, distanceAt (pre ++ p :: post) (length pre + j) = Some (Ok d))).
      { rewrite IH. split.
        - intros (k & Hk & Hbefore). exists (S k).
          rewrite <- distanceAt_shift. split; [done|].
          intros [|j] Hj; [rewrite Nat.add_0_r; eauto|].
          rewrite <- distanceAt_shift. apply Hbefore. lia.
        - intros ([|k] & Hk & Hbefore).
          + rewrite Nat.add_0_r, Hmid in Hk. discriminate.
          + exists k. rewrite distanceAt_shift. split; [done|].
            intros j Hj. rewrite distanceAt_shift. apply Hbefore. lia. }
      rewrite <- Hstep.
      destruct (distancesFrom (pre ++ [p]) post); split; congruence.
    + split.
      * intros [= ->]. exists 0. rewrite Nat.add_0_r. split; [done|]. lia.
      * intros ([|k] & Hk & Hbefore).
        -- rewrite Nat.add_0_r, Hmid in Hk. congruence.
        -- destruct (Hbefore 0 ltac:(lia)) as (d & Hd).
           rewrite Nat.add_0_r, Hmid in Hd. discriminate.
Qed.

(** Every point has a distance, or some first point makes the
    collaborators throw. *)
Lemma distancesOf_ok_iff (points : list Geometry) :
  (∃ values, distancesOf points = Ok values) ↔
  ∀ i, i < length points → ∃ d, distanceAt points i = Some (Ok d).
Proof.
  unfold distancesOf. split.
  - intros (values & Hvals) i Hi.
    apply distancesFrom_ok in Hvals as [Hlen Hpos].
    destruct (lookup_lt_is_Some_2 values i) as [d Hd]; [lia|].
    exists d. by apply (Hpos i d).
  - intros Hall. destruct (distancesFrom [] points) as [values|e] eqn:Hrun; [eauto|].
    apply distancesFrom_throw in Hrun as (k & Hk & _). cbn in Hk.
    assert (k < length points) as Hlt.
    { unfold distanceAt in Hk. destruct (points !! k) eqn:Hp; [|discriminate].
      by eapply lookup_lt_Some. }
    destruct (Hall k Hlt) as (d & Hd). congruence.
Qed.

End ByPosition.

(** ** Identity, in the search and in the mean *)

Section IdentityInTheCall.
Context {L : GeometryLib}.

Lemma theOtherFeatures_delete (features : list loc) (i : nat) (fi : loc) :
  NoDup features → features !! i = Some fi →
  theOtherFeatures features fi = delete i features.
Proof.
  intros Hnd Hfi. rewrite <- (take_drop_middle features i fi Hfi) at 1.
  rewrite theOtherFeatures_split, delete_take_drop;
    [done|by rewrite take_drop_middle].
Qed.

(** What [nearestPoint] is given for the point at position [i]: the
    geometries of the centroid objects at the other positions. *)
Lemma candidates_geometries h1 features gs i fi :
  NoDup features →
  Forall2 (λ l g, h1 !! l = Some (feature (centroid g))) features gs →
  features !! i = Some fi →
  featureGeometries (theOtherFeatures features fi) h1 =
    Ok (delete i (centroid <$> gs), h1).
Proof.
  intros Hnd Hgeo Hfi. rewrite (theOtherFeatures_delete _ _ _ Hnd Hfi).
  apply featureGeometries_run. rewrite !delete_take_drop.
  assert (Hin : datasetIn h1 features (centroid <$> gs)).
  { apply Forall2_fmap_r. eapply Forall2_impl; [exact Hgeo|].
    intros l g Hl. unfold hasGeometry. by rewrite Hl. }
  apply Forall2_app; [by apply Forall2_take|by apply Forall2_drop].
Qed.

(** The value [features.map] holds at position [i]. *)
Lemma value_at (points : list Geometry) (values : list number) i p d :
  distancesOf points = Ok values → points !! i = Some p →
  distance p (nearestPoint p (delete i points)) = Ok d →
  length values = length points ∧ values !! i = Some d.
Proof.
  intros Hvals Hp Hd. apply distancesFrom_ok in Hvals as [Hlen Hpos].
  split; [done|].
  destruct (lookup_lt_is_Some_2 values i) as [v Hv].
  { rewrite Hlen. by eapply lookup_lt_Some. }
  specialize (Hpos i v Hv). cbn in Hpos. unfold distanceAt in Hpos.
  rewrite Hp in Hpos. cbn in Hpos. congruence.
Qed.

(** C8.  Two features at positions [i ≠ j] with identical centroids get
    two distinct centroid objects with the same coordinates.  The filter
    [f !== feature] removes from the candidates of each only the object
    itself: the candidates are the objects at all the other positions, so
    each of the two is a candidate of the other, and [nearestPoint] is
    called on the geometries of exactly those candidates.  The
    collaborators searching the nearest candidate and measuring zero
    between equal coordinates, the value [features.map] holds for each of
    the two is a zero: in every call that returns, the observed mean
    distance is the sum over one value per feature, divided by their
    number, and the values at positions [i] and [j] are zero. *)
Theorem coincident_centroids_are_neighbours h ds gs i j gi gj :
  datasetIn h ds gs →
  i ≠ j → gs !! i = Some gi → gs !! j = Some gj →
  centroid gi = centroid gj →
  zeroDistance (centroid gi) →
  nearestSearchCorrect (centroid gi) (delete i (centroid <$> gs)) →
  nearestSearchCorrect (centroid gj) (delete j (centroid <$> gs)) →
  (∃ features h1 fi fj di dj,
    collectCentroids ds h = Ok (features, h1) ∧
    features !! i = Some fi ∧ features !! j = Some fj ∧ fi ≠ fj ∧
    h1 !! fi = Some (feature (centroid gi)) ∧
    h1 !! fj = Some (feature (centroid gi)) ∧
    (fi ∉ theOtherFeatures features fi) ∧ (fj ∈ theOtherFeatures features fi) ∧
    (fj ∉ theOtherFeatures features fj) ∧ (fi ∈ theOtherFeatures features fj) ∧
    theOtherFeatures features fi = delete i features ∧
    theOtherFeatures features fj = delete j features ∧
    (∃ candidates,
        featureGeometries (theOtherFeatures features fi) h1 = Ok (candidates, h1) ∧
        (centroid gj ∈ candidates) ∧
        nearestDistance features fi h1 =
          lift (distance (centroid gi) (nearestPoint (centroid gi) candidates)) h1) ∧
    (∃ candidates,
        featureGeometries (theOtherFeatures features fj) h1 = Ok (candidates, h1) ∧
        (centroid gi ∈ candidates) ∧
        nearestDistance features fj h1 =
          lift (distance (centroid gj) (nearestPoint (centroid gj) candidates)) h1) ∧
    nearestDistance features fi h1 = Ok (di, h1) ∧ is_zero di = true ∧
    nearestDistance features fj h1 = Ok (dj, h1) ∧ is_zero dj = true ∧
    (∀ values h2, nearestDistances features h1 = Ok (values, h2) →
       length values = length ds ∧
       values !! i = Some di ∧ values !! j = Some dj)) ∧
  (∀ options r h', nearestNeighbor ds options h = Ok (r, h') →
     ∃ a values di dj,
       analysisOf r h' = Some a ∧ length values = length ds ∧
       values !! i = Some di ∧ is_zero di = true ∧
       values !! j = Some dj ∧ is_zero dj = true ∧
       (∀ k d, values !! k = Some d →
          distanceAt (centroid <$> gs) k = Some (Ok d)) ∧
       observedMeanDistance a = (Num.sum values / of_nat (length ds))%float).
Proof.
  intros Hds Hij Hgi Hgj Hsame Hzero Hsi Hsj.
  assert (Hci : centroid gj ∈ delete i (centroid <$> gs)).
  { apply (elem_of_delete_other _ i j); [done|].
    by rewrite list_lookup_fmap, Hgj. }
  assert (Hcj : centroid gi ∈ delete j (centroid <$> gs)).
  { apply (elem_of_delete_other _ j i); [done|].
    by rewrite list_lookup_fmap, Hgi. }
  destruct (nearest_distance_zero (centroid gi) (delete i (centroid <$> gs)))
    as (di & Hdi & Hzi); [by rewrite Hsame|done..|].
  destruct (nearest_distance_zero (centroid gj) (delete j (centroid <$> gs)))
    as (dj & Hdj & Hzj); [by rewrite <- Hsame|done|by rewrite <- Hsame|].
  assert (Hpi : (centroid <$> gs) !! i = Some (centroid gi))
    by by rewrite list_lookup_fmap, Hgi.
  assert (Hpj : (centroid <$> gs) !! j = Some (centroid gj))
    by by rewrite list_lookup_fmap, Hgj.
  assert (Hlen : length (centroid <$> gs) = length ds).
  { rewrite length_fmap. by eapply datasetIn_length. }
  split.
  - destruct (collectCentroids_run h ds gs Hds)
      as (features & h1 & Hrun & Hgeo & Hnd & _ & _ & _).
    destruct (Forall2_lookup_r _ _ _ _ _ Hgeo Hgi) as (fi & Hfi & Hhi).
    destruct (Forall2_lookup_r _ _ _ _ _ Hgeo Hgj) as (fj & Hfj & Hhj).
    assert (Hne : fi ≠ fj).
    { intros ->. apply Hij. eapply NoDup_lookup; eauto. }
    cbn beta in Hhi, Hhj. rewrite <- Hsame in Hhj.
    assert (Hin : datasetIn h1 features (centroid <$> gs)).
    { apply Forall2_fmap_r. eapply Forall2_impl; [exact Hgeo|].
      intros l g Hl. unfold hasGeometry. by rewrite Hl. }
    pose proof (nearestDistance_at h1 features gs i fi gi Hnd Hgeo Hfi Hgi) as Hati.
    pose proof (nearestDistance_at h1 features gs j fj gj Hnd Hgeo Hfj Hgj) as Hatj.
    exists features, h1, fi, fj, di, dj.
    split; [done|]. split; [done|]. split; [done|]. split; [done|].
    split; [done|]. split; [done|].
    split; [unfold theOtherFeatures; rewrite list_elem_of_filter; tauto|].
    split; [unfold theOtherFeatures; rewrite list_elem_of_filter;
            split; [congruence|by eapply list_elem_of_lookup_2]|].
    split; [unfold theOtherFeatures; rewrite list_elem_of_filter; tauto|].
    split; [unfold theOtherFeatures; rewrite list_elem_of_filter;
            split; [congruence|by eapply list_elem_of_lookup_2]|].
    split; [by apply theOtherFeatures_delete|].
    split; [by apply theOtherFeatures_delete|].
    split.
    { exists (delete i (centroid <$> gs)).
      split; [by eapply candidates_geometries|]. by split. }
    split.
    { exists (delete j (centroid <$> gs)).
      split; [by eapply candidates_geometries|]. by split. }
    split; [by rewrite Hati, Hdi|]. split; [done|].
    split; [by rewrite Hatj, Hdj|]. split; [done|].
    intros values h2 Hvals.
    rewrite (nearestDistances_run h1 features (centroid <$> gs) Hnd Hin) in Hvals.
    destruct (distancesOf (centroid <$> gs)) as [vs|e] eqn:Hof; [|discriminate].
    cbn in Hvals. injection Hvals as <- <-.
    destruct (value_at _ _ i _ _ Hof Hpi Hdi) as [Hl Hvi].
    destruct (value_at _ _ j _ _ Hof Hpj Hdj) as [_ Hvj].
    split; [congruence|done].
  - intros options r h' Hcall.
    destruct (nearestNeighbor_inv h ds gs options r h' Hds Hcall)
      as (values & f & props & k1 & Hof & _ & _ & _ & _ & ->).
    destruct (value_at _ _ i _ _ Hof Hpi Hdi) as [Hl Hvi].
    destruct (value_at _ _ j _ _ Hof Hpj Hdj) as [_ Hvj].
    eexists _, values, di, dj. split; [apply analysisOf_annotate|].
    split; [congruence|]. split; [done|]. split; [done|].
    split; [done|]. split; [done|]. split; [|reflexivity].
    apply distancesFrom_ok in Hof as [_ Hpos]. exact Hpos.
Qed.

End IdentityInTheCall.

Lemma coincident_centroids_are_neighbours_witness :
  (∃ features h1 fi fj di dj,
    collectCentroids (L:=Planar.lib) (Samples.refsOf Samples.coincident)
                     (Samples.heapOf Samples.coincident) = Ok (features, h1) ∧
    features !! 0 = Some fi ∧ features !! 1 = Some fj ∧ fi ≠ fj ∧
    h1 !! fi = Some (feature (Point (0, 0)%float)) ∧
    h1 !! fj = Some (feature (Point (0, 0)%float)) ∧
    (fj ∈ theOtherFeatures features fi) ∧ (fi ∈ theOtherFeatures features fj) ∧
    nearestDistance (L:=Planar.lib) features fi h1 = Ok (di, h1) ∧ is_zero di = true ∧
    nearestDistance (L:=Planar.lib) features fj h1 = Ok (dj, h1) ∧ is_zero dj = true) ∧
  (∃ r h' a values d0 d1,
    nearestNeighbor (L:=Planar.lib) (Samples.refsOf Samples.coincident) None
                    (Samples.heapOf Samples.coincident) = Ok (r, h') ∧
    analysisOf r h' = Some a ∧ length values = 3 ∧
    values !! 0 = Some d0 ∧ is_zero d0 = true ∧
    values !! 1 = Some d1 ∧ is_zero d1 = true ∧
    observedMeanDistance a = (Num.sum values / of_nat 3)%float).
Proof.
  assert (Hds : datasetIn (Samples.heapOf Samples.coincident)
                          (Samples.refsOf Samples.coincident) Samples.coincident)
    by on_sample_store.
  assert (Hzero : zeroDistance (L:=Planar.lib) (Point (0, 0)%float)).
  { exists 0%float. split; reflexivity. }
  assert (Hsearch : nearestSearchCorrect (L:=Planar.lib) (Point (0, 0)%float)
                      [Point (0, 0); Point (3, 4)]%float).
  { exists (Point (0, 0)%float), 0%float.
    split; [reflexivity|]. split; [reflexivity|]. split; [reflexivity|].
    intros c Hc. each_candidate Hc.
    - exists 0%float. split; reflexivity.
    - exists 5%float. split; reflexivity. }
  destruct (coincident_centroids_are_neighbours (L:=Planar.lib)
              (Samples.heapOf Samples.coincident) (Samples.refsOf Samples.coincident)
              Samples.coincident 0 1 (Point (0, 0)%float) (Point (0, 0)%float)
              Hds ltac:(lia) eq_refl eq_refl eq_refl Hzero Hsearch Hsearch)
    as [(features & h1 & fi & fj & di & dj & Hrun & Hfi & Hfj & Hne & Hhi & Hhj
         & _ & Hji & _ & Hij & _ & _ & _ & _ & Hdi & Hzi & Hdj & Hzj & _) Hcall].
  split.
  - exists features, h1, fi, fj, di, dj. repeat split; assumption.
  - destruct (nearestNeighbor (L:=Planar.lib) (Samples.refsOf Samples.coincident) None
                              (Samples.heapOf Samples.coincident))
      as [[r h']|e] eqn:Hret; [|vm_compute in Hret; discriminate].
    destruct (Hcall None r h' Hret)
      as (a & values & d0 & d1 & Ha & Hlen & H0 & Hz0 & H1 & Hz1 & _ & Hobs).
    by exists r, h', a, values, d0, d1.
Defined.

(** ** When the call returns, and with what *)

Section Outcome.
Context {L : GeometryLib}.

Lemma distanceAt_length h ds gs :
  datasetIn h ds gs → length (centroid <$> gs) = length ds.
Proof. intros Hds. rewrite length_fmap. by eapply datasetIn_length. Qed.

(** The geometry of the returned study area is the one the options
    announce. *)
Lemma returned_geometry h ds gs options r h' :
  datasetIn h ds gs → studyAreaOnStore h options →
  nearestNeighbor ds options h = Ok (r, h') →
  ∃ values g,
    distancesOf (centroid <$> gs) = Ok values ∧
    studyAreaGeometry h gs options = Some g ∧
    hasGeometry h' r g ∧
    analysisOf r h' = Some (statisticsFor (length ds) values g).
Proof.
  intros Hds Hon Hrun.
  destruct (nearestNeighbor_inv h ds gs options r h' Hds Hrun)
    as (values & f & props & h1 & Hvals & _ & _ & _ & Horigin & ->).
  exists values, (geometry f). split; [done|].
  split; [|split; [|apply analysisOf_annotate]].
  - unfold studyAreaGeometry, studyAreaOrigin, studyAreaOnStore in *.
    destruct (studyArea (default {| studyArea := None |} options)) as [[l|b]|].
    + destruct Horigin as [-> Hf]. by rewrite (Hf Hon).
    + destruct Horigin as (Hlen & _ & ->). by rewrite decide_True.
    + by destruct Horigin as (_ & ->).
  - unfold hasGeometry. by rewrite lookup_insert_eq.
Qed.

(** X1.  The call returns exactly when the collaborators give a distance
    for the point at every position and the study area can take the
    assignment of line 49: none given, an array of four numbers, or a
    feature whose [properties] is an object.  An array of any other
    length, or a feature with [properties: null], makes it throw. *)
Theorem returns_exactly_when h ds gs options :
  datasetIn h ds gs → studyAreaOnStore h options →
  (∃ r h', nearestNeighbor ds options h = Ok (r, h')) ↔
  (∀ i, i < length ds → ∃ d, distanceAt (centroid <$> gs) i = Some (Ok d)) ∧
  studyAreaUsable h options.
Proof.
  intros Hds Hon. rewrite <- (distanceAt_length h ds gs Hds), <- distancesOf_ok_iff.
  split.
  - intros (r & h' & Hrun).
    destruct (nearestNeighbor_inv h ds gs options r h' Hds Hrun)
      as (values & f & props & h1 & Hvals & _ & _ & Hp & Horigin & _).
    split; [eauto|].
    unfold studyAreaUsable, studyAreaOrigin, studyAreaOnStore in *.
    destruct (studyArea (default {| studyArea := None |} options)) as [[l|b]|];
      [|tauto|done].
    destruct Horigin as [_ Hf]. exists f, props. auto.
  - intros [(values & Hvals) Huse]. by eapply nearestNeighbor_ok.
Qed.

(** X2.  When the collaborators throw for the point at position [k] and
    give a distance at every position before it, the call throws that
    exception, whatever the study area: the distances are computed before
    the assignment, and left to right. *)
Theorem first_failing_point_decides h ds gs options k e :
  datasetIn h ds gs →
  distanceAt (centroid <$> gs) k = Some (Throw e) →
  (∀ j, j < k → ∃ d, distanceAt (centroid <$> gs) j = Some (Ok d)) →
  nearestNeighbor ds options h = Throw e.
Proof.
  intros Hds Hk Hbefore.
  assert (Hvals : distancesOf (centroid <$> gs) = Throw e).
  { apply distancesFrom_throw. exists k. by cbn. }
  destruct (nearestNeighbor_steps h ds gs options Hds)
    as (sa & h0 & features & h1 & _ & _ & _ & _ & _ & Heq).
  by rewrite Heq, Hvals.
Qed.

(** X3.  On a call that returns, the observed mean distance is the sum,
    from 0 and in dataset order, of one distance per feature, divided by
    the number of features; the distance at position [i] is the one from
    the centroid of feature [i] to the nearest among the centroids at all
    the other positions. *)
Theorem observed_mean_of_nearest_distances h ds gs options r h' :
  datasetIn h ds gs →
  nearestNeighbor ds options h = Ok (r, h') →
  ∃ a values,
    analysisOf r h' = Some a ∧
    length values = length ds ∧
    (∀ i d, values !! i = Some d → distanceAt (centroid <$> gs) i = Some (Ok d)) ∧
    observedMeanDistance a =
      (fold_left PrimFloat.add values 0 / of_nat (length ds))%float.
Proof.
  intros Hds Hrun.
  destruct (nearestNeighbor_inv h ds gs options r h' Hds Hrun)
    as (values & f & props & h1 & Hvals & _ & _ & _ & _ & ->).
  apply distancesFrom_ok in Hvals as [Hlen Hpos].
  eexists _, values. split; [apply analysisOf_annotate|].
  split; [by rewrite Hlen, (distanceAt_length h ds gs Hds)|].
  split; [exact Hpos|reflexivity].
Qed.

(** X4.  The candidates of the centroid at position [i] are the centroid
    objects at all the other positions, in order, and nothing else: the
    filter by reference drops one object, the point itself, also when
    other centroids have its coordinates or the dataset lists a feature
    more than once. *)
Theorem candidates_are_the_other_positions h ds gs features h1 i fi :
  datasetIn h ds gs →
  collectCentroids ds h = Ok (features, h1) →
  features !! i = Some fi →
  theOtherFeatures features fi = delete i features ∧
  length (theOtherFeatures features fi) = length ds - 1 ∧
  featureGeometries (theOtherFeatures features fi) h1 =
    Ok (delete i (centroid <$> gs), h1).
Proof.
  intros Hds Hrun Hfi.
  destruct (collectCentroids_run h ds gs Hds)
    as (features' & h1' & Hrun' & Hgeo & Hnd & _ & _ & _).
  rewrite Hrun in Hrun'. injection Hrun' as <- <-.
  assert (Hothers : theOtherFeatures features fi = delete i features).
  { rewrite <- (take_drop_middle features i fi Hfi) at 1.
    rewrite theOtherFeatures_split, delete_take_drop;
      [done|by rewrite take_drop_middle]. }
  assert (Hlen : length features = length ds).
  { rewrite (Forall2_length _ _ _ Hgeo). eapply datasetIn_length, Hds. }
  split; [done|]. rewrite Hothers. split.
  - rewrite length_delete by eauto. lia.
  - apply featureGeometries_run.
    rewrite !delete_take_drop.
    assert (Hin : datasetIn h1 features (centroid <$> gs)).
    { apply Forall2_fmap_r. eapply Forall2_impl; [exact Hgeo|].
      intros l g Hl. unfold hasGeometry. by rewrite Hl. }
    apply Forall2_app; [by apply Forall2_take|by apply Forall2_drop].
Qed.

(** X5.  The loop of lines 35-38 makes one point object per feature of the
    dataset, in input order: the object at position [i] is new, differs
    from the objects at the other positions, and holds the centroid of
    feature [i]; every object that was on the store is as it was. *)
Theorem centroids_in_input_order h ds gs :
  datasetIn h ds gs →
  ∃ features h1,
    collectCentroids ds h = Ok (features, h1) ∧
    length features = length ds ∧ NoDup features ∧ h ⊆ h1 ∧
    ∀ i g, gs !! i = Some g →
      ∃ l, features !! i = Some l ∧ h !! l = None ∧
           h1 !! l = Some (feature (centroid g)).
Proof.
  intros Hds.
  destruct (collectCentroids_run h ds gs Hds)
    as (features & h1 & Hrun & Hgeo & Hnd & Hnew & Hsub & _).
  exists features, h1. split; [done|]. split.
  { rewrite (Forall2_length _ _ _ Hgeo). eapply datasetIn_length, Hds. }
  split; [done|]. split; [done|].
  intros i g Hg.
  destruct (Forall2_lookup_r _ _ _ _ _ Hgeo Hg) as (l & Hl & Hh).
  exists l. split; [done|]. split; [|done].
  rewrite Forall_forall in Hnew. apply Hnew. by eapply list_elem_of_lookup_2.
Qed.

End Outcome.

(** ** What the call leaves on the store *)

Section Footprint.
Context {L : GeometryLib}.

(** X6.  A call that returns changes no geometry: every object that was
    on the store is still there with the geometry it had, the study area
    it wrote to included; so the dataset is on the resulting store with
    the same geometries, in the same order. *)
Theorem no_geometry_changes h ds gs options r h' :
  datasetIn h ds gs →
  nearestNeighbor ds options h = Ok (r, h') →
  (∀ l g, hasGeometry h l g → hasGeometry h' l g) ∧
  datasetIn h' ds gs.
Proof.
  intros Hds Hrun.
  destruct (nearestNeighbor_inv h ds gs options r h' Hds Hrun)
    as (values & f & props & h1 & _ & Hsub & Hr & _ & _ & ->).
  split; [|by eapply datasetIn_annotate].
  intros l g Hl.
  assert (Hone : datasetIn h [l] [g]) by by repeat constructor.
  eapply (datasetIn_annotate h h1 [l] [g]) in Hone; [|done..].
  by apply Forall2_cons_1 in Hone as [? _].
Qed.

(** X7.  Without a feature as [options.studyArea] the call mutates
    nothing: the study area it returns is a new object, a polygon (the
    rectangle of the dataset's bounding box, or of the four numbers given)
    whose only property is the analysis, and the store it leaves extends
    the one it found. *)
Theorem without_a_feature_nothing_is_mutated h ds gs options r h' :
  datasetIn h ds gs → noFeatureGiven options →
  nearestNeighbor ds options h = Ok (r, h') →
  h !! r = None ∧ h ⊆ h' ∧
  ∃ g a,
    studyAreaGeometry h gs options = Some g ∧ isPolygon g = true ∧
    h' !! r = Some {| geometry := g;
                      properties := Some {[ analysisKey := VAnalysis a ]} |}.
Proof.
  intros Hds Hno Hrun.
  destruct (nearestNeighbor_inv h ds gs options r h' Hds Hrun)
    as (values & f & props & h1 & _ & Hsub & Hr & Hp & Horigin & ->).
  unfold noFeatureGiven, studyAreaOrigin, studyAreaGeometry in *.
  destruct (studyArea (default {| studyArea := None |} options)) as [[l|b]|]; [done| |].
  - destruct Horigin as (Hlen & Hnew & ->). injection Hp as <-.
    split; [done|]. split; [by apply insert_subseteq_r|].
    eexists _, _. rewrite decide_True by done. split; [done|].
    split; [apply bboxPolygon_polygon|].
    rewrite lookup_insert_eq. unfold annotate. by rewrite insert_empty.
  - destruct Horigin as (Hnew & ->). injection Hp as <-.
    split; [done|]. split; [by apply insert_subseteq_r|].
    eexists _, _. split; [done|]. split; [apply bboxPolygon_polygon|].
    rewrite lookup_insert_eq. unfold annotate. by rewrite insert_empty.
Qed.

(** X8.  A second call with the same arguments, on the store the first
    call left, changes no object at all: a study area given as a feature
    is written with what it already holds, anything else the call makes is
    new. *)
Theorem second_call_changes_no_object h ds gs options r1 h1 r2 h2 :
  datasetIn h ds gs →
  nearestNeighbor ds options h = Ok (r1, h1) →
  nearestNeighbor ds options h1 = Ok (r2, h2) →
  h1 ⊆ h2.
Proof.
  intros Hds Hrun1 Hrun2.
  destruct (nearestNeighbor_inv h ds gs options r1 h1 Hds Hrun1)
    as (values & f & props & k1 & Hvals & Hsub & Hr & Hp & Horigin & ->).
  set (a1 := statisticsFor (length ds) values (geometry f)) in *.
  set (h1 := <[r1 := annotate f props a1]> k1) in *.
  assert (Hds1 : datasetIn h1 ds gs) by by eapply datasetIn_annotate.
  destruct (nearestNeighbor_inv h1 ds gs options r2 h2 Hds1 Hrun2)
    as (values2 & f2 & props2 & k2 & Hvals2 & Hsub2 & Hr2 & Hp2 & Horigin2 & ->).
  assert (values2 = values) as -> by congruence.
  apply map_subseteq_spec. intros l x Hl.
  destruct (decide (l = r2)) as [->|Hne];
    [|rewrite lookup_insert_ne by done; eapply lookup_weaken; eauto].
  rewrite lookup_insert_eq.
  assert (x = f2) as ->.
  { eapply lookup_weaken in Hl; [|exact Hsub2]. congruence. }
  unfold studyAreaOrigin in *.
  destruct (studyArea (default {| studyArea := None |} options)) as [[l0|b]|].
  - destruct Horigin as [-> _], Horigin2 as [-> _].
    subst h1. rewrite lookup_insert_eq in Hl. injection Hl as <-.
    cbn in Hp2. injection Hp2 as <-.
    unfold annotate. cbn [geometry]. fold a1. by rewrite insert_insert_eq.
  - destruct Horigin2 as (_ & Hnew & _). congruence.
  - destruct Horigin2 as (Hnew & _). congruence.
Qed.

(** X9.  The analysis depends on geometries only: two calls whose datasets
    have the same geometries in the same order and whose study areas have
    the same geometry attach equal analyses, wherever the objects are on
    the two stores, whatever properties they carry, and whether the study
    area was given as a feature, as an array, or not at all. *)
Theorem analysis_depends_on_geometries_only
    hA dsA oA rA hA' hB dsB oB rB hB' gs :
  datasetIn hA dsA gs → datasetIn hB dsB gs →
  studyAreaOnStore hA oA → studyAreaOnStore hB oB →
  studyAreaGeometry hA gs oA = studyAreaGeometry hB gs oB →
  nearestNeighbor dsA oA hA = Ok (rA, hA') →
  nearestNeighbor dsB oB hB = Ok (rB, hB') →
  ∃ a, analysisOf rA hA' = Some a ∧ analysisOf rB hB' = Some a.
Proof.
  intros HdsA HdsB HonA HonB Hsame HrunA HrunB.
  destruct (returned_geometry hA dsA gs oA rA hA' HdsA HonA HrunA)
    as (valuesA & gA & HvalsA & HgA & _ & HaA).
  destruct (returned_geometry hB dsB gs oB rB hB' HdsB HonB HrunB)
    as (valuesB & gB & HvalsB & HgB & _ & HaB).
  assert (valuesB = valuesA) as -> by congruence.
  assert (gB = gA) as -> by congruence.
  exists (statisticsFor (length dsA) valuesA gA). split; [done|].
  rewrite HaB. do 2 f_equal.
  by rewrite <- (datasetIn_length _ _ _ HdsA), <- (datasetIn_length _ _ _ HdsB).
Qed.

End Footprint.

(** ** NaN in the formula *)

Section NotANumber.

Lemma div_nan_r (x : number) : (x / nan)%float = nan.
Proof.
  apply Prim2SF_inj. rewrite FloatAxioms.div_spec.
  change (Prim2SF nan) with S754_nan. by destruct (Prim2SF x).
Qed.

Lemma mul_nan_r (x : number) : (x * nan)%float = nan.
Proof.
  apply Prim2SF_inj. rewrite FloatAxioms.mul_spec.
  change (Prim2SF nan) with S754_nan. by destruct (Prim2SF x).
Qed.

(** X10.  [calculateNearestNeighborStatistics] checks nothing and passes
    NaN on: with a NaN observed mean distance the index and the z-score
    are NaN, whatever [n] and the area; with a NaN area, as line 49 passes
    when [area] returns NaN, the expected mean distance, the index and the
    z-score are NaN, whatever [n] and the observed mean. *)
Theorem statistics_propagate_nan (n : nat) (observed theArea : number) :
  (let a := calculateNearestNeighborStatistics n nan theArea in
   nearestNeighborIndex a = nan ∧ zScore a = nan) ∧
  (let a := calculateNearestNeighborStatistics n observed (nan * micro)%float in
   expectedMeanDistance a = nan ∧ nearestNeighborIndex a = nan ∧ zScore a = nan).
Proof.
  split; cbn.
  - by rewrite nan_div, nan_sub, nan_div.
  - change (nan * micro)%float with nan.
    unfold popDensity, expectedMeanDistanceOf, variance.
    rewrite !div_nan_r. change (PrimFloat.sqrt nan) with nan.
    change (2 * nan)%float with nan. change (1 / nan)%float with nan.
    rewrite mul_nan_r. change (PrimFloat.sqrt nan) with nan.
    change (c26136 / nan)%float with nan.
    by rewrite ?div_nan_r.
Qed.

End NotANumber.

(** ** The properties above, on sample stores *)

Lemma returns_exactly_when_witness :
  (∃ r h', nearestNeighbor (L:=Planar.lib) (Samples.refsOf Samples.corners) None
                           (Samples.heapOf Samples.corners) = Ok (r, h')) ∧
  (¬ ∃ r h', nearestNeighbor (L:=Planar.lib) (Samples.refsOf Samples.corners)
                             MoreSamples.box6 (Samples.heapOf Samples.corners) = Ok (r, h')) ∧
  (¬ ∃ r h', nearestNeighbor (L:=Planar.lib) (Samples.refsAfterArea Samples.corners)
                             Samples.useArea
                             (MoreSamples.heapWithBareArea Samples.corners) = Ok (r, h')).
Proof.
  assert (Hds : datasetIn (Samples.heapOf Samples.corners)
                          (Samples.refsOf Samples.corners) Samples.corners)
    by on_sample_store.
  assert (Hds' : datasetIn (MoreSamples.heapWithBareArea Samples.corners)
                           (Samples.refsAfterArea Samples.corners) Samples.corners)
    by on_sample_store.
  split; [|split].
  - apply (returns_exactly_when (L:=Planar.lib) _ _ _ None Hds I). split; [|exact I].
    intros i Hi. exists 1%float.
    destruct i as [|[|[|[|i]]]]; [reflexivity..|cbn in Hi; lia].
  - intros Hret.
    apply (returns_exactly_when (L:=Planar.lib) _ _ _ MoreSamples.box6 Hds I) in Hret
      as [_ Huse].
    vm_compute in Huse. discriminate.
  - intros Hret.
    assert (Hon : studyAreaOnStore (MoreSamples.heapWithBareArea Samples.corners)
                                   Samples.useArea) by (eexists; reflexivity).
    apply (returns_exactly_when (L:=Planar.lib) _ _ _ Samples.useArea Hds' Hon) in Hret
      as [_ (f & props & Hf & Hp)].
    vm_compute in Hf. injection Hf as <-. discriminate.
Defined.

Lemma first_failing_point_decides_witness :
  nearestNeighbor (L:=Planar.lib) (Samples.refsOf MoreSamples.farOff) None
                  (Samples.heapOf MoreSamples.farOff)
    = Throw (Error "coord is required").
Proof.
  assert (Hds : datasetIn (Samples.heapOf MoreSamples.farOff)
                          (Samples.refsOf MoreSamples.farOff) MoreSamples.farOff)
    by on_sample_store.
  apply (first_failing_point_decides (L:=Planar.lib) _ _ _ None 2 _ Hds).
  - reflexivity.
  - intros j Hj. exists 1%float. destruct j as [|[|j]]; [reflexivity..|lia].
Defined.

Lemma observed_mean_of_nearest_distances_witness :
  ∃ r h' a values,
    nearestNeighbor (L:=Planar.lib) (Samples.refsOf Samples.corners) None
                    (Samples.heapOf Samples.corners) = Ok (r, h') ∧
    analysisOf r h' = Some a ∧ length values = 4 ∧
    observedMeanDistance a = (fold_left PrimFloat.add values 0 / of_nat 4)%float.
Proof.
  destruct (nearestNeighbor (L:=Planar.lib) (Samples.refsOf Samples.corners) None
                            (Samples.heapOf Samples.corners))
    as [[r h']|e] eqn:Hrun; [|vm_compute in Hrun; discriminate].
  assert (Hds : datasetIn (Samples.heapOf Samples.corners)
                          (Samples.refsOf Samples.corners) Samples.corners)
    by on_sample_store.
  destruct (observed_mean_of_nearest_distances (L:=Planar.lib) _ _ _ _ _ _ Hds Hrun)
    as (a & values & Ha & Hlen & _ & Hobs).
  by exists r, h', a, values.
Defined.

Lemma candidates_are_the_other_positions_witness :
  ∃ features h1 fi,
    collectCentroids (L:=Planar.lib) MoreSamples.twice (Samples.heapOf MoreSamples.single)
      = Ok (features, h1) ∧
    features !! 0 = Some fi ∧
    theOtherFeatures features fi = delete 0 features ∧
    length (theOtherFeatures features fi) = 1.
Proof.
  assert (Hds : datasetIn (Samples.heapOf MoreSamples.single) MoreSamples.twice
                          [Point (2, 3); Point (2, 3)]%float)
    by on_sample_store.
  destruct (collectCentroids (L:=Planar.lib) MoreSamples.twice
                             (Samples.heapOf MoreSamples.single))
    as [[features h1]|e] eqn:Hrun; [|vm_compute in Hrun; discriminate].
  assert (Hfi : is_Some (features !! 0)).
  { assert (Hrun' := Hrun). vm_compute in Hrun'. injection Hrun' as <- <-. by eexists. }
  destruct Hfi as [fi Hfi].
  destruct (candidates_are_the_other_positions (L:=Planar.lib) _ _ _ _ _ _ _ Hds Hrun Hfi)
    as (Hothers & Hlen & _).
  by exists features, h1, fi.
Defined.

Lemma centroids_in_input_order_witness :
  ∃ features h1,
    collectCentroids (L:=Planar.lib) MoreSamples.twice (Samples.heapOf MoreSamples.single)
      = Ok (features, h1) ∧
    length features = 2 ∧ NoDup features.
Proof.
  assert (Hds : datasetIn (Samples.heapOf MoreSamples.single) MoreSamples.twice
                          [Point (2, 3); Point (2, 3)]%float)
    by on_sample_store.
  destruct (centroids_in_input_order (L:=Planar.lib) _ _ _ Hds)
    as (features & h1 & Hrun & Hlen & Hnd & _).
  by exists features, h1.
Defined.

Lemma no_geometry_changes_witness :
  ∃ h',
    nearestNeighbor (L:=Planar.lib) (Samples.refsAfterArea Samples.corners)
      Samples.useArea (Samples.heapWithArea Samples.corners) = Ok (1%positive, h') ∧
    hasGeometry h' 1%positive Samples.unitSquare ∧
    hasGeometry h' 2%positive Samples.p00 ∧
    datasetIn h' (Samples.refsAfterArea Samples.corners) Samples.corners.
Proof.
  destruct (nearestNeighbor (L:=Planar.lib) (Samples.refsAfterArea Samples.corners)
              Samples.useArea (Samples.heapWithArea Samples.corners))
    as [[r h']|e] eqn:Hrun; [|vm_compute in Hrun; discriminate].
  assert (r = 1%positive) as ->.
  { assert (Hrun' := Hrun). vm_compute in Hrun'. by injection Hrun' as <- _. }
  assert (Hds : datasetIn (Samples.heapWithArea Samples.corners)
                          (Samples.refsAfterArea Samples.corners) Samples.corners)
    by on_sample_store.
  destruct (no_geometry_changes (L:=Planar.lib) _ _ _ _ _ _ Hds Hrun)
    as [Hgeo Hds'].
  exists h'. split; [done|]. split; [by apply Hgeo|]. split; [by apply Hgeo|done].
Defined.

Lemma without_a_feature_nothing_is_mutated_witness :
  ∃ r h' a,
    nearestNeighbor (L:=Planar.lib) (Samples.refsOf Samples.corners) MoreSamples.box4
                    (Samples.heapOf Samples.corners) = Ok (r, h') ∧
    Samples.heapOf Samples.corners !! r = None ∧
    Samples.heapOf Samples.corners ⊆ h' ∧
    h' !! r = Some {| geometry := Samples.unitSquare;
                      properties := Some {[ analysisKey := VAnalysis a ]} |}.
Proof.
  destruct (nearestNeighbor (L:=Planar.lib) (Samples.refsOf Samples.corners)
              MoreSamples.box4 (Samples.heapOf Samples.corners))
    as [[r h']|e] eqn:Hrun; [|vm_compute in Hrun; discriminate].
  assert (Hds : datasetIn (Samples.heapOf Samples.corners)
                          (Samples.refsOf Samples.corners) Samples.corners)
    by on_sample_store.
  destruct (without_a_feature_nothing_is_mutated (L:=Planar.lib) _ _ _ MoreSamples.box4
              _ _ Hds I Hrun)
    as (Hnew & Hsub & g & a & Hg & _ & Hr).
  injection Hg as <-. by exists r, h', a.
Defined.

Lemma second_call_changes_no_object_witness :
  ∃ r1 h1 r2 h2,
    nearestNeighbor (L:=Planar.lib) (Samples.refsAfterArea Samples.corners)
      Samples.useArea (Samples.heapWithArea Samples.corners) = Ok (r1, h1) ∧
    nearestNeighbor (L:=Planar.lib) (Samples.refsAfterArea Samples.corners)
      Samples.useArea h1 = Ok (r2, h2) ∧
    h1 ⊆ h2.
Proof.
  destruct (nearestNeighbor (L:=Planar.lib) (Samples.refsAfterArea Samples.corners)
              Samples.useArea (Samples.heapWithArea Samples.corners))
    as [[r1 h1]|e] eqn:Hrun1; [|vm_compute in Hrun1; discriminate].
  destruct (nearestNeighbor (L:=Planar.lib) (Samples.refsAfterArea Samples.corners)
              Samples.useArea h1)
    as [[r2 h2]|e] eqn:Hrun2.
  - assert (Hds : datasetIn (Samples.heapWithArea Samples.corners)
                            (Samples.refsAfterArea Samples.corners) Samples.corners)
      by on_sample_store.
    exists r1, h1, r2, h2. split; [done|]. split; [done|].
    exact (second_call_changes_no_object (L:=Planar.lib) _ _ _ _ _ _ _ _ Hds Hrun1 Hrun2).
  - exfalso. vm_compute in Hrun1. injection Hrun1 as <- <-.
    vm_compute in Hrun2. discriminate.
Defined.

Lemma analysis_depends_on_geometries_only_witness :
  ∃ rA hA' rB hB' a,
    nearestNeighbor (L:=Planar.lib) (Samples.refsOf Samples.corners) None
                    (Samples.heapOf Samples.corners) = Ok (rA, hA') ∧
    nearestNeighbor (L:=Planar.lib) (Samples.refsAfterArea Samples.corners)
                    Samples.useArea (Samples.heapWithArea Samples.corners) = Ok (rB, hB') ∧
    analysisOf rA hA' = Some a ∧ analysisOf rB hB' = Some a.
Proof.
  destruct (nearestNeighbor (L:=Planar.lib) (Samples.refsOf Samples.corners) None
                            (Samples.heapOf Samples.corners))
    as [[rA hA']|e] eqn:HrunA; [|vm_compute in HrunA; discriminate].
  destruct (nearestNeighbor (L:=Planar.lib) (Samples.refsAfterArea Samples.corners)
              Samples.useArea (Samples.heapWithArea Samples.corners))
    as [[rB hB']|e] eqn:HrunB; [|vm_compute in HrunB; discriminate].
  assert (HdsA : datasetIn (Samples.heapOf Samples.corners)
                           (Samples.refsOf Samples.corners) Samples.corners)
    by on_sample_store.
  assert (HdsB : datasetIn (Samples.heapWithArea Samples.corners)
                           (Samples.refsAfterArea Samples.corners) Samples.corners)
    by on_sample_store.
  assert (HonB : studyAreaOnStore (Samples.heapWithArea Samples.corners) Samples.useArea)
    by (eexists; reflexivity).
  destruct (analysis_depends_on_geometries_only (L:=Planar.lib)
              _ _ None _ _ _ _ Samples.useArea _ _ _ HdsA HdsB I HonB eq_refl HrunA HrunB)
    as (a & HaA & HaB).
  by exists rA, hA', rB, hB', a.
Defined.
